(** * TodoManager: the task store of the todo application

    A shallow embedding of [TodoManager.ts] and of the parts of the
    JavaScript platform it calls (strings, [Date], [JSON], [localStorage]),
    followed by the properties of the store. *)

From Stdlib Require Import ZArith Lia List Bool String Ascii.
From Stdlib Require Import Decimal DecimalZ.
From Stdlib Require Import Floats.SpecFloat.
From stdpp Require Import base decidable option list.

Local Open Scope Z_scope.

(** ** JavaScript strings

    A string is a sequence of UTF-16 code units; [length] counts code
    units, as [String.prototype.length] does. *)

Definition char16 := Z.
Definition jsstring := list char16.

(** A literal of the source, written with ASCII characters. *)
Definition lit (s : string) : jsstring :=
  map (fun a => Z.of_N (N_of_ascii a)) (list_ascii_of_string s).

(** WhiteSpace and LineTerminator code points of ECMA-262, the ones
    [String.prototype.trim] strips. *)
Definition isWhiteSpace (c : char16) : bool :=
  (c =? 9) || (c =? 10) || (c =? 11) || (c =? 12) || (c =? 13) || (c =? 32)
  || (c =? 160) || (c =? 5760) || ((8192 <=? c) && (c <=? 8202))
  || (c =? 8232) || (c =? 8233) || (c =? 8239) || (c =? 8287)
  || (c =? 12288) || (c =? 65279).

Fixpoint trimStart (s : jsstring) : jsstring :=
  match s with
  | c :: r => if isWhiteSpace c then trimStart r else s
  | [] => []
  end.

Definition trimEnd (s : jsstring) : jsstring := rev (trimStart (rev s)).

Definition trim (s : jsstring) : jsstring := trimEnd (trimStart s).

(** [s.substr(start, len)] for non-negative arguments. *)
Definition substr (start len : nat) (s : jsstring) : jsstring :=
  take len (drop start s).

(** Decimal rendering of an integer Number, as a template literal or a
    property key renders it (integers below 10^21 print without exponent). *)
Fixpoint uint_units (u : Decimal.uint) : jsstring :=
  match u with
  | Nil => []
  | D0 u => 48 :: uint_units u
  | D1 u => 49 :: uint_units u
  | D2 u => 50 :: uint_units u
  | D3 u => 51 :: uint_units u
  | D4 u => 52 :: uint_units u
  | D5 u => 53 :: uint_units u
  | D6 u => 54 :: uint_units u
  | D7 u => 55 :: uint_units u
  | D8 u => 56 :: uint_units u
  | D9 u => 57 :: uint_units u
  end.

Definition int_units (i : Decimal.signed_int) : jsstring :=
  match i with
  | Pos u => uint_units u
  | Neg u => 45 :: uint_units u
  end.

Definition NumberToString (z : Z) : jsstring := int_units (Z.to_int z).

Definition isDigit (c : char16) : bool := (48 <=? c) && (c <=? 57).

(** ** Date

    The time value of a Date object is an integer number of milliseconds
    since the epoch, or NaN ([None], an Invalid Date). The functions below
    are the abstract operations of ECMA-262, section 21.4.1. *)

Definition timevalue := option Z.

Module DateOps.

Definition msPerDay : Z := 86400000.
Definition msPerHour : Z := 3600000.
Definition msPerMinute : Z := 60000.
Definition msPerSecond : Z := 1000.
Definition maxTime : Z := 8640000000000000.

Definition Day (t : Z) : Z := t / msPerDay.
Definition TimeWithinDay (t : Z) : Z := t mod msPerDay.

Definition DaysInYear (y : Z) : Z :=
  if negb (y mod 4 =? 0) then 365
  else if negb (y mod 100 =? 0) then 366
  else if negb (y mod 400 =? 0) then 365
  else 366.

Definition DayFromYear (y : Z) : Z :=
  365 * (y - 1970) + (y - 1969) / 4 - (y - 1901) / 100 + (y - 1601) / 400.

(** The largest year whose first day is not after day [d]: an estimate
    from the mean length of a Gregorian year, corrected by one. *)
Definition YearFromDay (d : Z) : Z :=
  let y0 := 1970 + (400 * d) / 146097 in
  if d <? DayFromYear y0 then y0 - 1
  else if DayFromYear (y0 + 1) <=? d then y0 + 1
  else y0.

Definition YearFromTime (t : Z) : Z := YearFromDay (Day t).

Definition leapDays (y : Z) : Z := DaysInYear y - 365.

Definition InLeapYear (t : Z) : Z := leapDays (YearFromTime t).

Definition DayWithinYear (t : Z) : Z := Day t - DayFromYear (YearFromTime t).

(** Number of the first day of month [m] (0 to 11) within a year. *)
Definition firstDayOfMonth (leap m : Z) : Z :=
  if m =? 0 then 0
  else if m =? 1 then 31
  else if m =? 2 then 59 + leap
  else if m =? 3 then 90 + leap
  else if m =? 4 then 120 + leap
  else if m =? 5 then 151 + leap
  else if m =? 6 then 181 + leap
  else if m =? 7 then 212 + leap
  else if m =? 8 then 243 + leap
  else if m =? 9 then 273 + leap
  else if m =? 10 then 304 + leap
  else if m =? 11 then 334 + leap
  else 365 + leap.

Definition monthOfDay (leap d : Z) : Z :=
  if d <? 31 then 0
  else if d <? 59 + leap then 1
  else if d <? 90 + leap then 2
  else if d <? 120 + leap then 3
  else if d <? 151 + leap then 4
  else if d <? 181 + leap then 5
  else if d <? 212 + leap then 6
  else if d <? 243 + leap then 7
  else if d <? 273 + leap then 8
  else if d <? 304 + leap then 9
  else if d <? 334 + leap then 10
  else 11.

Definition MonthFromTime (t : Z) : Z :=
  monthOfDay (InLeapYear t) (DayWithinYear t).

Definition DateFromTime (t : Z) : Z :=
  DayWithinYear t - firstDayOfMonth (InLeapYear t) (MonthFromTime t) + 1.

Definition HourFromTime (t : Z) : Z := (t / msPerHour) mod 24.
Definition MinFromTime (t : Z) : Z := (t / msPerMinute) mod 60.
Definition SecFromTime (t : Z) : Z := (t / msPerSecond) mod 60.
Definition msFromTime (t : Z) : Z := t mod msPerSecond.

Definition MakeTime (hour min sec ms : Z) : Z :=
  hour * msPerHour + min * msPerMinute + sec * msPerSecond + ms.

Definition MakeDay (year month date : Z) : Z :=
  let ym := year + month / 12 in
  let mn := month mod 12 in
  DayFromYear ym + firstDayOfMonth (leapDays ym) mn + date - 1.

Definition MakeDate (day time : Z) : Z := day * msPerDay + time.

Definition TimeClip (t : Z) : timevalue :=
  if maxTime <? Z.abs t then None else Some t.

Definition daysInMonth (y m : Z) : Z :=
  firstDayOfMonth (leapDays y) (m + 1) - firstDayOfMonth (leapDays y) m.

(** [w] decimal digits of [x], most significant first, zero padded. *)
Fixpoint digits (w : nat) (x : Z) : jsstring :=
  match w with
  | O => []
  | S w' => (48 + (x / 10 ^ Z.of_nat w') mod 10) :: digits w' x
  end.

(** [Date.prototype.toISOString] of a valid time value:
    [YYYY-MM-DDTHH:mm:ss.sssZ], the year as [+YYYYYY] or [-YYYYYY] outside
    0 to 9999. *)
Definition yearString (y : Z) : jsstring :=
  if (0 <=? y) && (y <=? 9999) then digits 4 y
  else (if 0 <=? y then 43 else 45) :: digits 6 (Z.abs y).

Definition toISOString (t : Z) : jsstring :=
  yearString (YearFromTime t)
  ++ 45 :: digits 2 (MonthFromTime t + 1)
  ++ 45 :: digits 2 (DateFromTime t)
  ++ 84 :: digits 2 (HourFromTime t)
  ++ 58 :: digits 2 (MinFromTime t)
  ++ 58 :: digits 2 (SecFromTime t)
  ++ 46 :: digits 3 (msFromTime t)
  ++ [90].

(** Reading back the date-time format. *)
Fixpoint number (w : nat) (acc : Z) (s : jsstring) : option (Z * jsstring) :=
  match w with
  | O => Some (acc, s)
  | S w' =>
      match s with
      | c :: r => if isDigit c then number w' (10 * acc + (c - 48)) r else None
      | [] => None
      end
  end.

Definition expect (c : char16) (s : jsstring) : option jsstring :=
  match s with
  | c' :: r => if c' =? c then Some r else None
  | [] => None
  end.

Definition year (s : jsstring) : option (Z * jsstring) :=
  match s with
  | c :: r =>
      if c =? 43 then number 6 0 r
      else if c =? 45 then
        match number 6 0 r with
        | Some (y, r') => if y =? 0 then None else Some (- y, r')
        | None => None
        end
      else number 4 0 s
  | [] => None
  end.

(** The time value of a string in the format [toISOString] writes, with
    every field in its calendar range; [None] for any other string. *)
Definition parseISO (s : jsstring) : option Z :=
  '(y, s) ← year s;
  s ← expect 45 s;
  '(mo, s) ← number 2 0 s;
  s ← expect 45 s;
  '(d, s) ← number 2 0 s;
  s ← expect 84 s;
  '(h, s) ← number 2 0 s;
  s ← expect 58 s;
  '(mi, s) ← number 2 0 s;
  s ← expect 58 s;
  '(sec, s) ← number 2 0 s;
  s ← expect 46 s;
  '(ms, s) ← number 3 0 s;
  s ← expect 90 s;
  match s with
  | [] =>
      if (1 <=? mo) && (mo <=? 12) && (1 <=? d) && (d <=? daysInMonth y (mo - 1))
         && (h <=? 23) && (mi <=? 59) && (sec <=? 59)
      then Some (MakeDate (MakeDay y (mo - 1) d) (MakeTime h mi sec ms))
      else None
  | _ :: _ => None
  end.

End DateOps.
Import DateOps.

(** ** JSON values and task objects *)

#[local] Set Warnings "-register-all".

(** What [JSON.parse] returns. A number is an IEEE 754 double. *)
Inductive json : Type :=
  | JNull
  | JBool (b : bool)
  | JNum (x : spec_float)
  | JStr (s : jsstring)
  | JArr (xs : list json)
  | JObj (ps : list (jsstring * json)).

(** A property value of an object held by the store: a value [JSON.parse]
    made or a primitive the code assigned, or a Date object. *)
Inductive value : Type :=
  | VJson (j : json)
  | VDate (t : timevalue).

(** An object: its own properties in property order. Reading a missing
    property yields [None], JavaScript's [undefined]. *)
Definition object := list (jsstring * value).

Fixpoint getProp {V : Type} (k : jsstring) (ps : list (jsstring * V)) : option V :=
  match ps with
  | [] => None
  | (k', v) :: r => if bool_decide (k' = k) then Some v else getProp k r
  end.

(** Assignment [o.k = v]: an existing property keeps its place, a new one
    goes last. *)
Fixpoint setProp {V : Type} (k : jsstring) (v : V) (ps : list (jsstring * V))
  : list (jsstring * V) :=
  match ps with
  | [] => [(k, v)]
  | (k', v') :: r =>
      if bool_decide (k' = k) then (k, v) :: r else (k', v') :: setProp k v r
  end.

Definition numTruthy (x : spec_float) : bool :=
  match x with
  | S754_zero _ | S754_nan => false
  | _ => true
  end.

Definition ToBoolean (v : option value) : bool :=
  match v with
  | None => false
  | Some (VDate _) => true
  | Some (VJson JNull) => false
  | Some (VJson (JBool b)) => b
  | Some (VJson (JNum x)) => numTruthy x
  | Some (VJson (JStr s)) => negb (bool_decide (s = []))
  | Some (VJson (JArr _)) | Some (VJson (JObj _)) => true
  end.

(** [TimeClip(ToNumber(x))] for a Number [x]: NaN when not finite or
    beyond the range of time values, else [x] truncated to an integer. *)
Definition timeOfNumber (x : spec_float) : timevalue :=
  match x with
  | S754_zero _ => Some 0
  | S754_infinity _ | S754_nan => None
  | S754_finite s m e =>
      let over :=
        if 0 <=? e then maxTime <? Z.pos m * 2 ^ e
        else maxTime * 2 ^ (- e) <? Z.pos m in
      if over then None
      else let n := Z.shiftl (Z.pos m) e in Some (if s then - n else n)
  end.

(** The parts of [new Date(v)] that ECMA-262 leaves to the implementation
    or that depend on conversions outside this model. *)
Record Host := {
  (** [Date.parse] of a string that is not in the format of
      [toISOString] with in-range fields. *)
  parseOther : jsstring -> timevalue;
  (** [new Date(v)] for an array or object [v] (ToPrimitive, then
      [Date.parse]); [None] is a thrown TypeError. *)
  dateOfObject : json -> option timevalue
}.

Inductive error := TypeError | SyntaxError | SecurityError | QuotaExceededError.

(** Outcome of evaluating code that may throw. *)
Inductive completion (A : Type) : Type :=
  | Normal (a : A)
  | Throw (e : error).
Arguments Normal {A} a.
Arguments Throw {A} e.

Definition Date_parse (h : Host) (s : jsstring) : timevalue :=
  match parseISO s with
  | Some t => TimeClip t
  | None => parseOther h s
  end.

(** [new Date(v)], [v = None] being [undefined]. *)
Definition newDateOf (h : Host) (v : option json) : completion timevalue :=
  match v with
  | None => Normal None
  | Some JNull => Normal (Some 0)
  | Some (JBool b) => Normal (Some (if b then 1 else 0))
  | Some (JNum x) => Normal (timeOfNumber x)
  | Some (JStr s) => Normal (Date_parse h s)
  | Some (JArr _ as o) | Some (JObj _ as o) =>
      match dateOfObject h o with
      | Some t => Normal t
      | None => Throw TypeError
      end
  end.

(** Own enumerable properties copied by the spread [{...v}]. *)
Definition spread (v : json) : object :=
  match v with
  | JObj ps => map (fun p => (fst p, VJson (snd p))) ps
  | JArr xs => imap (fun i x => (NumberToString (Z.of_nat i), VJson x)) xs
  | JStr s => imap (fun i c => (NumberToString (Z.of_nat i), VJson (JStr [c]))) s
  | JNull | JBool _ | JNum _ => []
  end.

(** Property read [v.k] on a parsed value; reading from [null] throws. *)
Definition member (k : jsstring) (v : json) : completion (option json) :=
  match v with
  | JNull => Throw TypeError
  | JObj ps => Normal (getProp k ps)
  | _ => Normal None
  end.

(** The value [JSON.parse(JSON.stringify(j))] of a parsed value [j]:
    non-finite numbers are written as [null], negative zero as [0]. *)
Fixpoint jsonOfJson (j : json) : json :=
  match j with
  | JNum (S754_infinity _) | JNum S754_nan => JNull
  | JNum (S754_zero _) => JNum (S754_zero false)
  | JArr xs => JArr (map jsonOfJson xs)
  | JObj ps => JObj (map (fun p => (fst p, jsonOfJson (snd p))) ps)
  | _ => j
  end.

(** What [JSON.stringify] writes for a property value: a Date through
    [Date.prototype.toJSON], hence as its ISO string, or [null] when
    invalid. *)
Definition jsonOfValue (v : value) : json :=
  match v with
  | VJson j => jsonOfJson j
  | VDate (Some t) => JStr (toISOString t)
  | VDate None => JNull
  end.

Definition jsonOfObject (o : object) : json :=
  JObj (map (fun p => (fst p, jsonOfValue (snd p))) o).

(** ** localStorage and the console *)

(** The string stored under a key, told by what the code can observe of
    it: its truthiness and the outcome of [JSON.parse]. The text that
    [JSON.stringify] writes for a value is the one [JSON.parse] reads back
    as the JSON image of that value ([jsonOfValue] and [jsonOfJson]
    above), which is how a written record is represented. *)
Inductive stored : Type :=
  | Blank                (* the empty string *)
  | Garbled              (* non-empty, [JSON.parse] throws a SyntaxError *)
  | Encodes (j : json).  (* [JSON.parse] returns [j] *)

Record Browser := {
  todosItem : option stored;   (* item under the key 'todos', if any *)
  getItemThrows : bool;        (* reading the storage is denied *)
  setItemThrows : bool;        (* writing fails: quota exceeded or denied *)
  setItemCalls : nat;          (* calls of [localStorage.setItem] so far *)
  consoleErrors : nat          (* calls of [console.error] so far *)
}.

Definition getItem (b : Browser) : completion (option stored) :=
  if getItemThrows b then Throw SecurityError else Normal (todosItem b).

(** [localStorage.setItem('todos', s)]: the outcome and the browser after
    the call. *)
Definition setItem (s : stored) (b : Browser) : completion unit * Browser :=
  if setItemThrows b then
    (Throw QuotaExceededError,
     {| todosItem := todosItem b; getItemThrows := getItemThrows b;
        setItemThrows := setItemThrows b;
        setItemCalls := S (setItemCalls b);
        consoleErrors := consoleErrors b |})
  else
    (Normal tt,
     {| todosItem := Some s; getItemThrows := getItemThrows b;
        setItemThrows := setItemThrows b;
        setItemCalls := S (setItemCalls b);
        consoleErrors := consoleErrors b |}).

Definition consoleError (b : Browser) : Browser :=
  {| todosItem := todosItem b; getItemThrows := getItemThrows b;
     setItemThrows := setItemThrows b;
     setItemCalls := setItemCalls b;
     consoleErrors := S (consoleErrors b) |}.

(** ** The types of [types.ts] *)

(** Modelled from the spec: [types.ts] is not among the sources. The
    filter selection is one of [all], [active], [completed]. *)
Module FilterType.
Inductive t := all | active | completed.
End FilterType.

(** Modelled from the spec: [types.ts] is not among the sources. The
    result of [getStats] has the three counts [total], [active] and
    [completed]. *)
Record TodoStats := {
  total : nat;
  active : nat;
  completed : nat
}.

(** Modelled from the spec: [types.ts] is not among the sources. A task has
    the properties [id], [text], [completed] and [createdAt]. At run time a
    task is an object; the ones the store builds have exactly these
    properties, the ones it reads from the storage have whatever the
    stored text gave them. *)
Definition Todo := object.

Definition mkTodo (id text : jsstring) (done : bool) (createdAt : Z) : Todo :=
  [ (lit "id", VJson (JStr id));
    (lit "text", VJson (JStr text));
    (lit "completed", VJson (JBool done));
    (lit "createdAt", VDate (Some createdAt)) ].

(** [todo.completed] as the conditions of the code test it. *)
Definition isCompleted (todo : Todo) : bool :=
  ToBoolean (getProp (lit "completed") todo).

(** [todo.id === id] for a string [id]. *)
Definition idIs (id : jsstring) (todo : Todo) : bool :=
  match getProp (lit "id") todo with
  | Some (VJson (JStr s)) => bool_decide (s = id)
  | _ => false
  end.

(** ** TodoManager *)

Module TodoManager.

Record t := {
  todos : list Todo;
  currentFilter : FilterType.t
}.

(** What one call of [addTodo] reads from the clock and the random
    generator. The random number enters the id only through its base-36
    rendering, which is taken as the reading. *)
Record Entropy := {
  dateNow : Z;            (* [Date.now()] in [generateId] *)
  random36 : jsstring;    (* [Math.random().toString(36)] *)
  newDate : Z             (* time value of [new Date()] *)
}.

Definition generateId (e : Entropy) : jsstring :=
  NumberToString (dateNow e) ++ 45 :: substr 2 9 (random36 e).

Definition saveToLocalStorage (this : t) (b : Browser) : Browser :=
  match setItem (Encodes (JArr (map jsonOfObject (todos this)))) b with
  | (Normal _, b') => b'
  | (Throw _, b') => consoleError b'
  end.

(** The callback of [parsed.map]:
    [{...todo, createdAt: new Date(todo.createdAt)}]. *)
Definition restore (h : Host) (todo : json) : completion Todo :=
  match member (lit "createdAt") todo with
  | Throw e => Throw e
  | Normal v =>
      match newDateOf h v with
      | Throw e => Throw e
      | Normal d => Normal (setProp (lit "createdAt") (VDate d) (spread todo))
      end
  end.

Fixpoint restoreAll (h : Host) (xs : list json) : completion (list Todo) :=
  match xs with
  | [] => Normal []
  | x :: r =>
      match restore h x with
      | Throw e => Throw e
      | Normal o =>
          match restoreAll h r with
          | Throw e => Throw e
          | Normal os => Normal (o :: os)
          end
      end
  end.

(** [parsed.map(...)]: only an array has a callable [map]. *)
Definition parsedMap (h : Host) (parsed : json) : completion (list Todo) :=
  match parsed with
  | JArr xs => restoreAll h xs
  | _ => Throw TypeError
  end.

(** The [try] block of [loadFromLocalStorage]; [Normal None] when the
    condition [if (stored)] fails and nothing is assigned. *)
Definition tryLoad (h : Host) (b : Browser) : completion (option (list Todo)) :=
  match getItem b with
  | Throw e => Throw e
  | Normal None | Normal (Some Blank) => Normal None
  | Normal (Some Garbled) => Throw SyntaxError
  | Normal (Some (Encodes parsed)) =>
      match parsedMap h parsed with
      | Throw e => Throw e
      | Normal l => Normal (Some l)
      end
  end.

Definition loadFromLocalStorage (h : Host) (this : t) (b : Browser) : t * Browser :=
  match tryLoad h b with
  | Normal None => (this, b)
  | Normal (Some l) => ({| todos := l; currentFilter := currentFilter this |}, b)
  | Throw _ =>
      ({| todos := []; currentFilter := currentFilter this |}, consoleError b)
  end.

(** [new TodoManager()]: the field initialisers, then the load. *)
Definition constructor (h : Host) (b : Browser) : t * Browser :=
  loadFromLocalStorage h {| todos := []; currentFilter := FilterType.all |} b.

Definition addTodo (e : Entropy) (text : jsstring) (this : t) (b : Browser)
  : option Todo * t * Browser :=
  let trimmedText := trim text in
  if (length trimmedText =? 0)%nat then (None, this, b)
  else if (200 <? length trimmedText)%nat then (None, this, b)
  else
    let newTodo := mkTodo (generateId e) trimmedText false (newDate e) in
    let this' := {| todos := todos this ++ [newTodo];
                    currentFilter := currentFilter this |} in
    (Some newTodo, this', saveToLocalStorage this' b).

Definition deleteTodo (id : jsstring) (this : t) (b : Browser) : bool * t * Browser :=
  let initialLength := length (todos this) in
  let this' := {| todos := List.filter (fun todo => negb (idIs id todo)) (todos this);
                  currentFilter := currentFilter this |} in
  if (length (todos this') <? initialLength)%nat
  then (true, this', saveToLocalStorage this' b)
  else (false, this', b).

Definition toggleTodo (id : jsstring) (this : t) (b : Browser) : bool * t * Browser :=
  match list_find (fun todo => idIs id todo = true) (todos this) with
  | Some (i, todo) =>
      let todo' :=
        setProp (lit "completed") (VJson (JBool (negb (isCompleted todo)))) todo in
      let this' := {| todos := <[i := todo']> (todos this);
                      currentFilter := currentFilter this |} in
      (true, this', saveToLocalStorage this' b)
  | None => (false, this, b)
  end.

Definition getTodos (filter : option FilterType.t) (this : t) : list Todo :=
  let filterType := match filter with Some f => f | None => currentFilter this end in
  match filterType with
  | FilterType.active => List.filter (fun todo => negb (isCompleted todo)) (todos this)
  | FilterType.completed => List.filter (fun todo => isCompleted todo) (todos this)
  | FilterType.all => todos this
  end.

Definition getTodoById (id : jsstring) (this : t) : option Todo :=
  List.find (fun todo => idIs id todo) (todos this).

Definition clearCompleted (this : t) (b : Browser) : nat * t * Browser :=
  let initialLength := length (todos this) in
  let this' := {| todos := List.filter (fun todo => negb (isCompleted todo)) (todos this);
                  currentFilter := currentFilter this |} in
  let deletedCount := (initialLength - length (todos this'))%nat in
  if (0 <? deletedCount)%nat
  then (deletedCount, this', saveToLocalStorage this' b)
  else (deletedCount, this', b).

Definition getStats (this : t) : TodoStats :=
  {| total := length (todos this);
     active := length (List.filter (fun t => negb (isCompleted t)) (todos this));
     completed := length (List.filter (fun t => isCompleted t) (todos this)) |}.

Definition setFilter (filter : FilterType.t) (this : t) : t :=
  {| todos := todos this; currentFilter := filter |}.

Definition getCurrentFilter (this : t) : FilterType.t := currentFilter this.

Definition clearAll (this : t) (b : Browser) : t * Browser :=
  let this' := {| todos := []; currentFilter := currentFilter this |} in
  (this', saveToLocalStorage this' b).

End TodoManager.

Import TodoManager.

(** Sequences of store operations, as the presentation layer issues them. *)
Inductive op :=
  | Create (e : Entropy) (text : jsstring)
  | Toggle (id : jsstring)
  | Delete (id : jsstring)
  | ClearCompleted
  | ClearAll
  | SetFilter (f : FilterType.t).

Definition step (o : op) (w : TodoManager.t * Browser) : TodoManager.t * Browser :=
  match o with
  | Create e text => let r := addTodo e text w.1 w.2 in (r.1.2, r.2)
  | Toggle id => let r := toggleTodo id w.1 w.2 in (r.1.2, r.2)
  | Delete id => let r := deleteTodo id w.1 w.2 in (r.1.2, r.2)
  | ClearCompleted => let r := clearCompleted w.1 w.2 in (r.1.2, r.2)
  | ClearAll => clearAll w.1 w.2
  | SetFilter f => (setFilter f w.1, w.2)
  end.

Definition run (ops : list op) (w : TodoManager.t * Browser) : TodoManager.t * Browser :=
  fold_left (fun w o => step o w) ops w.

(** The [id] properties of the tasks of a store, in sequence order. *)
Definition ids (this : TodoManager.t) : list (option value) :=
  map (getProp (lit "id")) (todos this).

(** Number of elements of a sequence that satisfy a test. *)
Fixpoint countIf {A : Type} (f : A -> bool) (l : list A) : nat :=
  match l with
  | [] => O
  | x :: r => if f x then S (countIf f r) else countIf f r
  end.

(** ** UIManager

    The presentation layer works on the elements of the document that it
    looks up by id or class. The document itself is not among the
    sources; the test suite builds it with a form and its text input, the
    list, the empty-state and error elements, three filter buttons that
    hold the counters, a clear button and a total counter, all present,
    distinct and none inside the list. *)

Module UIManager.

(** A [.filter-btn] button: its [data-filter] attribute, if any, and
    whether its class list has [active]. *)
Record Button := {
  dataFilter : option jsstring;
  isActive : bool
}.

(** The state of the elements the code reads or writes. A counter is
    [None] when the document has no element of that id. A child of the
    list is told by the task [createTodoElement] built it from. *)
Record Page := {
  inputValue : jsstring;          (* [todoInput.value] *)
  errorText : jsstring;           (* [errorMessage.textContent] *)
  errorHidden : bool;             (* [hidden] in the class list of [errorMessage] *)
  filterButtons : list Button;
  countAll : option jsstring;
  countActive : option jsstring;
  countCompleted : option jsstring;
  totalTasks : option jsstring;
  listItems : list Todo;          (* children of [todoList] *)
  listHidden : bool;              (* [hidden] in the class list of [todoList] *)
  emptyHidden : bool              (* [hidden] in the class list of [emptyState] *)
}.

(** The page, the store and the browser storage, as a handler finds and
    leaves them. *)
Record World := {
  page : Page;
  manager : TodoManager.t;
  browser : Browser
}.

(** [createTodoElement] writes the id of the task into markup and looks
    the checkbox and the delete button up in what the browser parses from
    it; the conversion of the id to a string or a missing button makes it
    throw. The markup and its parsing are outside this model: whether the
    element gets built for a task is a parameter. *)
Record Dom := {
  builds : Todo -> bool
}.

(** The string value of a filter selection. *)
Definition filterName (f : FilterType.t) : jsstring :=
  match f with
  | FilterType.all => lit "all"
  | FilterType.active => lit "active"
  | FilterType.completed => lit "completed"
  end.

Definition showError (message : jsstring) (p : Page) : Page :=
  {| inputValue := inputValue p; errorText := message; errorHidden := false;
     filterButtons := filterButtons p;
     countAll := countAll p; countActive := countActive p;
     countCompleted := countCompleted p; totalTasks := totalTasks p;
     listItems := listItems p; listHidden := listHidden p;
     emptyHidden := emptyHidden p |}.

Definition hideError (p : Page) : Page :=
  {| inputValue := inputValue p; errorText := errorText p; errorHidden := true;
     filterButtons := filterButtons p;
     countAll := countAll p; countActive := countActive p;
     countCompleted := countCompleted p; totalTasks := totalTasks p;
     listItems := listItems p; listHidden := listHidden p;
     emptyHidden := emptyHidden p |}.

(** [updateCounter] on one counter: the text is replaced only when the
    element exists. *)
Definition updateCounter (element : option jsstring) (value : nat) : option jsstring :=
  match element with
  | Some _ => Some (NumberToString (Z.of_nat value))
  | None => None
  end.

(** The loop [todos.forEach(...)] that appends one element per task: it
    stops at the first task whose element cannot be built. *)
Fixpoint appendElements (d : Dom) (todos : list Todo) : completion unit * list Todo :=
  match todos with
  | [] => (Normal tt, [])
  | todo :: rest =>
      if builds d todo
      then let r := appendElements d rest in (r.1, todo :: r.2)
      else (Throw TypeError, [])
  end.

(** [render]: the outcome and the world it leaves. *)
Definition render (d : Dom) (w : World) : completion unit * World :=
  let todos := getTodos None (manager w) in
  let stats := getStats (manager w) in
  let p := page w in
  let appended := appendElements d todos in
  (appended.1,
   {| page :=
        {| inputValue := inputValue p; errorText := errorText p;
           errorHidden := errorHidden p; filterButtons := filterButtons p;
           countAll := updateCounter (countAll p) (total stats);
           countActive := updateCounter (countActive p) (active stats);
           countCompleted := updateCounter (countCompleted p) (completed stats);
           totalTasks := updateCounter (totalTasks p) (total stats);
           listItems := appended.2;
           listHidden := (length todos =? 0)%nat;
           emptyHidden := negb (length todos =? 0)%nat |};
      manager := manager w;
      browser := browser w |}).

Definition setInputValue (v : jsstring) (p : Page) : Page :=
  {| inputValue := v; errorText := errorText p; errorHidden := errorHidden p;
     filterButtons := filterButtons p;
     countAll := countAll p; countActive := countActive p;
     countCompleted := countCompleted p; totalTasks := totalTasks p;
     listItems := listItems p; listHidden := listHidden p;
     emptyHidden := emptyHidden p |}.

Definition withPage (p : Page) (w : World) : World :=
  {| page := p; manager := manager w; browser := browser w |}.

Definition handleAddTodo (d : Dom) (e : Entropy) (w : World) : completion unit * World :=
  let text := inputValue (page w) in
  let r := addTodo e text (manager w) (browser w) in
  match r.1.1 with
  | Some _ =>
      render d {| page := hideError (setInputValue [] (page w));
                  manager := r.1.2; browser := r.2 |}
  | None =>
      let w' := {| page := page w; manager := r.1.2; browser := r.2 |} in
      if (length (trim text) =? 0)%nat
      then (Normal tt, withPage (showError (lit "Taak mag niet leeg zijn") (page w')) w')
      else if (200 <? length (trim text))%nat
      then (Normal tt,
            withPage
              (showError (lit "Taak mag niet langer zijn dan 200 karakters") (page w')) w')
      else (Normal tt, w')
  end.

Definition setButtons (bs : list Button) (p : Page) : Page :=
  {| inputValue := inputValue p; errorText := errorText p;
     errorHidden := errorHidden p; filterButtons := bs;
     countAll := countAll p; countActive := countActive p;
     countCompleted := countCompleted p; totalTasks := totalTasks p;
     listItems := listItems p; listHidden := listHidden p;
     emptyHidden := emptyHidden p |}.

(** The loop over the buttons: [active] is removed, then added again
    where the attribute is the filter. *)
Definition markButton (filter : FilterType.t) (btn : Button) : Button :=
  {| dataFilter := dataFilter btn;
     isActive := match dataFilter btn with
                 | Some s => bool_decide (s = filterName filter)
                 | None => false
                 end |}.

Definition handleFilterChange (d : Dom) (filter : FilterType.t) (w : World)
  : completion unit * World :=
  render d
    {| page := setButtons (map (markButton filter) (filterButtons (page w))) (page w);
       manager := setFilter filter (manager w);
       browser := browser w |}.

Definition handleClearCompleted (d : Dom) (w : World) : completion unit * World :=
  let r := clearCompleted (manager w) (browser w) in
  let w' := {| page := page w; manager := r.1.2; browser := r.2 |} in
  if (0 <? r.1.1)%nat then render d w' else (Normal tt, w').

(** [escapeHtml]: the text becomes the data of a text node, and
    [innerHTML] serialises it with the four replacements of the HTML
    fragment serialisation algorithm. *)
Definition escapeUnit (c : char16) : jsstring :=
  if c =? 38 then lit "&amp;"
  else if c =? 160 then lit "&nbsp;"
  else if c =? 60 then lit "&lt;"
  else if c =? 62 then lit "&gt;"
  else [c].

Definition escapeHtml (text : jsstring) : jsstring := flat_map escapeUnit text.

(** [new UIManager(todoManager)]: the elements are looked up, the
    listeners attached and the page is rendered. *)
Definition constructor (d : Dom) (w : World) : completion unit * World := render d w.

End UIManager.

(** [main.ts]: the store is constructed from the storage, then the
    presentation layer on top of it. *)
Definition main (d : UIManager.Dom) (h : Host) (p : UIManager.Page) (b : Browser)
  : completion unit * UIManager.World :=
  let r := TodoManager.constructor h b in
  UIManager.constructor d {| UIManager.page := p; UIManager.manager := r.1;
                             UIManager.browser := r.2 |}.

(** The document of the test suite before any script has run. *)
Definition samplePage : UIManager.Page :=
  {| UIManager.inputValue := []; UIManager.errorText := [];
     UIManager.errorHidden := true;
     UIManager.filterButtons :=
       [ {| UIManager.dataFilter := Some (lit "all"); UIManager.isActive := true |};
         {| UIManager.dataFilter := Some (lit "active"); UIManager.isActive := false |};
         {| UIManager.dataFilter := Some (lit "completed"); UIManager.isActive := false |} ];
     UIManager.countAll := Some (lit "0"); UIManager.countActive := Some (lit "0");
     UIManager.countCompleted := Some (lit "0"); UIManager.totalTasks := Some (lit "0");
     UIManager.listItems := []; UIManager.listHidden := false;
     UIManager.emptyHidden := false |}.

(** ** Sample data *)

Definition sampleBrowser : Browser :=
  {| todosItem := None; getItemThrows := false; setItemThrows := false;
     setItemCalls := 0; consoleErrors := 0 |}.

Definition sampleStore : TodoManager.t :=
  {| todos := [ mkTodo (lit "1699999999999-abcdefghi") (lit "Buy milk") false 1699999999999;
                mkTodo (lit "1700000000001-k2j8x0q1z") (lit "Pay bills") true 1700000000001 ];
     currentFilter := FilterType.all |}.

(** A host whose [Date.parse] rejects what the model leaves open. *)
Definition plainHost : Host :=
  {| parseOther := fun _ => None; dateOfObject := fun _ => Some None |}.

(** Two creates in the same millisecond whose random draws differ only
    after the ninth digit. *)
Definition entropyA : Entropy :=
  {| dateNow := 1700000000000; random36 := lit "0.4fzyo82mvyr";
     newDate := 1700000000000 |}.

Definition entropyB : Entropy :=
  {| dateNow := 1700000000000; random36 := lit "0.4fzyo82mv1k";
     newDate := 1700000000000 |}.

Definition entropyC : Entropy :=
  {| dateNow := 1700000000005; random36 := lit "0.k2j8x0q1zab";
     newDate := 1700000000005 |}.

(** The session of the scenario: two creates, then a toggle of the second
    task. *)
Definition scenarioOps : list op :=
  [ Create entropyA (lit "Buy milk");
    Create entropyC (lit "Pay bills");
    Toggle (generateId entropyC) ].

(** A task of the data model: the object [addTodo] builds, whatever its
    completed flag, with a time value in the range of Date objects. *)
Definition isTask (todo : Todo) : Prop :=
  ∃ (id text : jsstring) (done : bool) (createdAt : Z),
    todo = mkTodo id text done createdAt ∧ Z.abs createdAt ≤ maxTime.

(** The clock readings of a create are time values. *)
Definition validClock (o : op) : Prop :=
  match o with
  | Create e _ => Z.abs (newDate e) ≤ maxTime
  | _ => True
  end.

(** The storage can be read and written. *)
Definition storageWorks (b : Browser) : Prop :=
  getItemThrows b = false ∧ setItemThrows b = false.

(** The stored record is the image of the store: nothing stored yet and
    no task, or the text [JSON.stringify] writes for the tasks. *)
Definition inSync (w : TodoManager.t * Browser) : Prop :=
  (todosItem w.2 = None ∧ todos w.1 = [])
  ∨ todosItem w.2 = Some (Encodes (JArr (map jsonOfObject (todos w.1)))).

(** A browser whose storage refuses every write. *)
Definition fullBrowser : Browser :=
  {| todosItem := Some (Encodes (JArr [])); getItemThrows := false;
     setItemThrows := true; setItemCalls := 0; consoleErrors := 0 |}.

(** The text of a task as [addTodo] stores it: a string of 1 to 200 code
    units with no white space at either end. *)
Definition textOk (todo : Todo) : Prop :=
  ∃ s, getProp (lit "text") todo = Some (VJson (JStr s))
       ∧ (1 ≤ length s ≤ 200)%nat ∧ trim s = s.

(** A storage holding the text [[{"id":"a","text":"x"},null]]. *)
Definition nullElementBrowser : Browser :=
  {| todosItem := Some (Encodes (JArr [JObj [(lit "id", JStr (lit "a"));
                                             (lit "text", JStr (lit "x"))];
                                       JNull]));
     getItemThrows := false; setItemThrows := false;
     setItemCalls := 0; consoleErrors := 0 |}.





(** A browser that builds the element of every task. *)
Definition plainDom : UIManager.Dom := {| UIManager.builds := fun _ => true |}.

Definition sampleWorld : UIManager.World :=
  {| UIManager.page := samplePage; UIManager.manager := sampleStore;
     UIManager.browser := sampleBrowser |}.

(** * Properties *)

(** ** Sequences filtered by a callback *)

Section FilterFacts.
Context {A : Type} (f : A -> bool).

Lemma filter_bool_sublist (l : list A) : sublist (List.filter f l) l.
Proof.
  induction l as [|x l IH]; simpl; [constructor|].
  destruct (f x); by constructor.
Qed.

Lemma elem_of_filter_bool (l : list A) (x : A) :
  x ∈ List.filter f l ↔ x ∈ l ∧ f x = true.
Proof. rewrite !list_elem_of_In. apply filter_In. Qed.

Lemma filter_bool_length (l : list A) :
  length (List.filter f l) = countIf f l.
Proof. induction l as [|x l IH]; simpl; [done|]. destruct (f x); simpl; lia. Qed.

Lemma countIf_split (l : list A) :
  (countIf f l + countIf (fun x => negb (f x)) l = length l)%nat.
Proof. induction l as [|x l IH]; simpl; [done|]. destruct (f x); simpl; lia. Qed.

Lemma countIf_ext (g : A -> bool) (l : list A) :
  (∀ x, f x = g x) → countIf f l = countIf g l.
Proof. intros E. induction l as [|x l IH]; simpl; [done|]. by rewrite E, IH. Qed.

Lemma countIf_le (l : list A) : (countIf f l ≤ length l)%nat.
Proof. pose proof (countIf_split l). lia. Qed.

Lemma filter_bool_all (l : list A) :
  Forall (fun x => f x = true) l → List.filter f l = l.
Proof.
  induction 1 as [|x l Hx _ IH]; simpl; [done|]. by rewrite Hx, IH.
Qed.

Lemma Forall_filter_bool (P : A → Prop) (l : list A) :
  Forall P l → Forall P (List.filter f l).
Proof.
  induction 1 as [|x l Hx _ IH]; simpl; [done|].
  destruct (f x); [by constructor|done].
Qed.

Lemma countIf_none (l : list A) :
  countIf f l = O → Forall (fun x => f x = false) l.
Proof.
  induction l as [|x l IH]; simpl; [constructor|].
  destruct (f x) eqn:E; [discriminate|]. intros; constructor; auto.
Qed.

Lemma countIf_all (l : list A) :
  Forall (fun x => f x = true) l → countIf f l = length l.
Proof. induction 1 as [|x l Hx _ IH]; simpl; [done|]. rewrite Hx. lia. Qed.
End FilterFacts.

(** ** Properties of objects *)

Lemma getProp_setProp_eq {V : Type} (k : jsstring) (v : V) (ps : list (jsstring * V)) :
  getProp k (setProp k v ps) = Some v.
Proof.
  induction ps as [|[k' v'] ps IH]; simpl.
  - by rewrite bool_decide_eq_true_2.
  - destruct (bool_decide (k' = k)) eqn:E; simpl.
    + by rewrite bool_decide_eq_true_2.
    + by rewrite E.
Qed.

Lemma getProp_setProp_ne {V : Type} (k k0 : jsstring) (v : V) (ps : list (jsstring * V)) :
  k0 ≠ k → getProp k0 (setProp k v ps) = getProp k0 ps.
Proof.
  intros Hne. induction ps as [|[k' v'] ps IH]; simpl.
  - rewrite bool_decide_eq_false_2; [done|congruence].
  - destruct (bool_decide (k' = k)) eqn:E; simpl.
    + apply bool_decide_eq_true in E. subst k'.
      by rewrite !bool_decide_eq_false_2 by congruence.
    + by rewrite IH.
Qed.

Lemma setProp_length {V : Type} (k : jsstring) (v : V) (ps : list (jsstring * V)) :
  is_Some (getProp k ps) → length (setProp k v ps) = length ps.
Proof.
  induction ps as [|[k' v'] ps IH]; simpl.
  - by intros [? ?].
  - destruct (bool_decide (k' = k)); simpl; [done|]. intros. by rewrite IH.
Qed.

(** ** Trimming *)

Lemma trimStart_spec (s : jsstring) :
  ∃ l, s = l ++ trimStart s
       ∧ Forall (fun c => isWhiteSpace c = true) l
       ∧ (∀ c r, trimStart s = c :: r → isWhiteSpace c = false).
Proof.
  induction s as [|c s (l & Hs & Hl & Hh)]; simpl.
  - exists []. split_and!; [done|constructor|done].
  - destruct (isWhiteSpace c) eqn:E.
    + exists (c :: l). split_and!; [by rewrite Hs at 1|by constructor|done].
    + exists []. split_and!; [done|constructor|]. by intros ? ? [= <- _].
Qed.

(** [trim] removes a run of white space at each end, and what is left
    neither starts nor ends with white space. *)
Lemma trim_spec (s : jsstring) :
  ∃ l r, s = l ++ trim s ++ r
         ∧ Forall (fun c => isWhiteSpace c = true) l
         ∧ Forall (fun c => isWhiteSpace c = true) r
         ∧ (∀ c t, trim s = c :: t → isWhiteSpace c = false)
         ∧ (∀ c t, trim s = t ++ [c] → isWhiteSpace c = false).
Proof.
  destruct (trimStart_spec s) as (l & Hs & Hl & Hh).
  destruct (trimStart_spec (rev (trimStart s))) as (r & Hr & Hrw & Hrh).
  unfold trim, trimEnd. exists l, (rev r).
  assert (Hmid : trimStart s = rev (trimStart (rev (trimStart s))) ++ rev r).
  { rewrite <- rev_app_distr, <- Hr. by rewrite rev_involutive. }
  split_and!.
  - by rewrite <- Hmid.
  - done.
  - apply Forall_forall. intros c Hc%list_elem_of_In%in_rev%list_elem_of_In.
    by eapply Forall_forall in Hrw.
  - intros c t Ht.
    destruct (trimStart (rev (trimStart s))) as [|c' t'] eqn:E; [done|].
    rewrite Ht in Hmid. apply (Hh c (t ++ rev r)). by rewrite Hmid.
  - intros c t Ht. apply (Hrh c (rev t)).
    apply (f_equal (@rev _)) in Ht. rewrite rev_involutive, rev_app_distr in Ht.
    exact Ht.
Qed.

(** ** Creating a task *)

Lemma addTodo_cases (e : Entropy) (text : jsstring) (this : TodoManager.t) (b : Browser) :
  ((1 ≤ length (trim text) ≤ 200)%nat ∧
   addTodo e text this b =
     (Some (mkTodo (generateId e) (trim text) false (newDate e)),
      {| todos := todos this ++ [mkTodo (generateId e) (trim text) false (newDate e)];
         currentFilter := currentFilter this |},
      saveToLocalStorage
        {| todos := todos this ++ [mkTodo (generateId e) (trim text) false (newDate e)];
           currentFilter := currentFilter this |} b))
  ∨ (¬ (1 ≤ length (trim text) ≤ 200)%nat ∧ addTodo e text this b = (None, this, b)).
Proof.
  unfold addTodo.
  destruct (Nat.eqb_spec (length (trim text)) 0) as [H0|H0].
  { right. split; [lia|done]. }
  destruct (Nat.ltb_spec 200 (length (trim text))) as [H1|H1].
  { right. split; [lia|done]. }
  left. split; [lia|done].
Qed.

Lemma saveToLocalStorage_calls (this : TodoManager.t) (b : Browser) :
  setItemCalls (saveToLocalStorage this b) = S (setItemCalls b).
Proof. unfold saveToLocalStorage, setItem. by destruct (setItemThrows b). Qed.

(** C1: for every input string, [addTodo] returns a task exactly when the
    trimmed input has between 1 and 200 code units; the task returned is
    then a new one whose text is the trimmed input and whose completed
    flag is false, and it is the last element of the sequence; in every
    other case the result is null. *)
Theorem addTodo_accepts_trimmed_1_to_200
  (e : Entropy) (text : jsstring) (this : TodoManager.t) (b : Browser) :
  ((∃ todo, (addTodo e text this b).1.1 = Some todo)
     ↔ (1 ≤ length (trim text) ≤ 200)%nat)
  ∧ (∀ todo, (addTodo e text this b).1.1 = Some todo →
       todo = mkTodo (generateId e) (trim text) false (newDate e)
       ∧ getProp (lit "text") todo = Some (VJson (JStr (trim text)))
       ∧ getProp (lit "completed") todo = Some (VJson (JBool false))
       ∧ todos (addTodo e text this b).1.2 = todos this ++ [todo])
  ∧ ((addTodo e text this b).1.1 = None
       ↔ ¬ (1 ≤ length (trim text) ≤ 200)%nat).
Proof.
  destruct (addTodo_cases e text this b) as [[Hlen ->]|[Hlen ->]]; simpl.
  - split_and!.
    + split; [done|]. intros _. by eexists.
    + intros todo [= <-]. by split_and!.
    + split; [discriminate|]. intros []. done.
  - split_and!.
    + split; [by intros [? ?]|]. intros; by destruct Hlen.
    + by intros ? ?.
    + done.
Qed.

(** C4: when [addTodo] rejects its input the store and the storage are
    exactly as before, with no call of [setItem]; [setItem] is called, once,
    exactly when a task is returned; and the input is rejected exactly when
    its trimmed length is 0 or above 200. *)
Theorem addTodo_rejection_changes_nothing
  (e : Entropy) (text : jsstring) (this : TodoManager.t) (b : Browser) :
  ((addTodo e text this b).1.1 = None
     ↔ (length (trim text) = 0 ∨ 200 < length (trim text))%nat)
  ∧ ((addTodo e text this b).1.1 = None →
       (addTodo e text this b).1.2 = this ∧ (addTodo e text this b).2 = b)
  ∧ (setItemCalls (addTodo e text this b).2 =
       match (addTodo e text this b).1.1 with
       | Some _ => S (setItemCalls b)
       | None => setItemCalls b
       end)
  ∧ (is_Some (addTodo e text this b).1.1
       ↔ setItemCalls (addTodo e text this b).2 = S (setItemCalls b)).
Proof.
  destruct (addTodo_cases e text this b) as [[Hlen ->]|[Hlen ->]]; simpl.
  - rewrite saveToLocalStorage_calls. split_and!; try done.
    split; [discriminate|lia].
  - split_and!; try done.
    + split; [lia|done].
    + split; [by intros [? ?]|lia].
Qed.

(** ** Counts *)

Lemma getStats_counts (this : TodoManager.t) :
  total (getStats this) = length (todos this)
  ∧ active (getStats this) = countIf (fun t => negb (isCompleted t)) (todos this)
  ∧ completed (getStats this) = countIf isCompleted (todos this).
Proof.
  unfold getStats; simpl. by rewrite !filter_bool_length.
Qed.

(** C3: after every sequence of create, toggle, delete and clear
    operations (from any store), the active and completed counts of
    [getStats] add up to the total; the total is the number of tasks, the
    active count the number of tasks whose completed flag is false, the
    completed count the number whose flag is true; a store without tasks
    yields three zeros. *)
Theorem getStats_active_plus_completed_is_total
  (ops : list op) (this : TodoManager.t) (b : Browser) (f : FilterType.t) :
  (active (getStats (run ops (this, b)).1)
     + completed (getStats (run ops (this, b)).1)
   = total (getStats (run ops (this, b)).1))%nat
  ∧ total (getStats (run ops (this, b)).1) = length (todos (run ops (this, b)).1)
  ∧ active (getStats (run ops (this, b)).1)
      = countIf (fun t => bool_decide (isCompleted t = false)) (todos (run ops (this, b)).1)
  ∧ completed (getStats (run ops (this, b)).1)
      = countIf (fun t => bool_decide (isCompleted t = true)) (todos (run ops (this, b)).1)
  ∧ getStats {| todos := []; currentFilter := f |}
      = {| total := 0; active := 0; completed := 0 |}.
Proof.
  generalize (run ops (this, b)).1 as s. intros s.
  destruct (getStats_counts s) as (Ht & Ha & Hc).
  rewrite Ht, Ha, Hc. split_and!; try done.
  - pose proof (countIf_split isCompleted (todos s)). lia.
  - apply countIf_ext. intros x. by destruct (isCompleted x).
  - apply countIf_ext. intros x. by destruct (isCompleted x).
Qed.

(** ** Unknown ids *)

(** C7: for an id that no task of the store has, [deleteTodo] and
    [toggleTodo] both return false and leave the store and the storage as
    they were, [setItem] not being called. *)
Theorem unknown_id_delete_toggle_return_false
  (id : jsstring) (this : TodoManager.t) (b : Browser) :
  Forall (fun todo => idIs id todo = false) (todos this) →
  deleteTodo id this b = (false, this, b)
  ∧ toggleTodo id this b = (false, this, b)
  ∧ setItemCalls (deleteTodo id this b).2 = setItemCalls b
  ∧ setItemCalls (toggleTodo id this b).2 = setItemCalls b.
Proof.
  intros Hnone.
  assert (Hd : deleteTodo id this b = (false, this, b)).
  { unfold deleteTodo; simpl.
    rewrite filter_bool_all.
    - rewrite Nat.ltb_irrefl. by destruct this.
    - eapply Forall_impl; [exact Hnone|]. by intros x ->. }
  assert (Ht : toggleTodo id this b = (false, this, b)).
  { unfold toggleTodo.
    assert (list_find (fun todo => idIs id todo = true) (todos this) = None) as ->; [|done].
    apply list_find_None. eapply Forall_impl; [exact Hnone|].
    intros x Hx. simpl. congruence. }
  by rewrite Hd, Ht.
Qed.

Lemma unknown_id_delete_toggle_return_false_witness :
  Forall (fun todo => idIs (lit "non-existing-id") todo = false) (todos sampleStore)
  ∧ deleteTodo (lit "non-existing-id") sampleStore sampleBrowser
      = (false, sampleStore, sampleBrowser).
Proof.
  assert (H : Forall (fun todo => idIs (lit "non-existing-id") todo = false)
                (todos sampleStore)) by (repeat constructor).
  split; [exact H|].
  exact (proj1 (unknown_id_delete_toggle_return_false _ sampleStore sampleBrowser H)).
Defined.

(** ** Clearing completed tasks *)

(** C8: [clearCompleted] keeps, in their order, exactly the tasks whose
    completed flag is false and returns the number of tasks whose flag was
    true; [setItem] is called exactly when that number is positive, and
    when it is zero the store and the storage are left as they were. *)
Theorem clearCompleted_removes_completed_writes_if_any
  (this : TodoManager.t) (b : Browser) :
  todos (clearCompleted this b).1.2
    = List.filter (fun todo => negb (isCompleted todo)) (todos this)
  ∧ sublist (todos (clearCompleted this b).1.2) (todos this)
  ∧ (∀ todo, todo ∈ todos (clearCompleted this b).1.2
             ↔ todo ∈ todos this ∧ isCompleted todo = false)
  ∧ currentFilter (clearCompleted this b).1.2 = currentFilter this
  ∧ (clearCompleted this b).1.1 = countIf isCompleted (todos this)
  ∧ ((0 < (clearCompleted this b).1.1)%nat
       ↔ setItemCalls (clearCompleted this b).2 = S (setItemCalls b))
  ∧ ((0 < (clearCompleted this b).1.1)%nat →
       (clearCompleted this b).2 = saveToLocalStorage (clearCompleted this b).1.2 b)
  ∧ ((clearCompleted this b).1.1 = O →
       (clearCompleted this b).1.2 = this ∧ (clearCompleted this b).2 = b).
Proof.
  assert (Hn : (length (todos this)
                - length (List.filter (fun todo => negb (isCompleted todo)) (todos this))
                = countIf isCompleted (todos this))%nat).
  { rewrite filter_bool_length.
    pose proof (countIf_split isCompleted (todos this)). lia. }
  unfold clearCompleted; simpl. rewrite Hn.
  destruct (Nat.ltb_spec 0 (countIf isCompleted (todos this))) as [Hpos|Hzero]; simpl.
  - rewrite saveToLocalStorage_calls. split_and!; try done.
    + apply filter_bool_sublist.
    + intros todo. rewrite elem_of_filter_bool. by rewrite negb_true_iff.
    + lia.
  - split_and!; try done.
    + apply filter_bool_sublist.
    + intros todo. rewrite elem_of_filter_bool. by rewrite negb_true_iff.
    + split; lia.
    + lia.
    + intros _. split; [|done].
      rewrite filter_bool_all; [by destruct this|].
      assert (Hz : countIf isCompleted (todos this) = O) by lia.
      apply countIf_none in Hz. eapply Forall_impl; [exact Hz|]. by intros x ->.
Qed.

(** ** Filtered views *)

(** C9: in every store, [getTodos('active')] and [getTodos('completed')]
    split [getTodos('all')]: a task is in the full sequence exactly when it
    is in one of the two, the active view holds exactly the tasks whose
    completed flag is false and the completed view exactly those whose flag
    is true, no task is in both, their lengths add up, and each view keeps
    the order of the full sequence. *)
Theorem getTodos_active_completed_partition (this : TodoManager.t) :
  getTodos (Some FilterType.all) this = todos this
  ∧ (∀ todo, todo ∈ getTodos (Some FilterType.all) this
             ↔ todo ∈ getTodos (Some FilterType.active) this ∨ todo ∈ getTodos (Some FilterType.completed) this)
  ∧ (∀ todo, todo ∈ getTodos (Some FilterType.active) this
             ↔ todo ∈ getTodos (Some FilterType.all) this ∧ isCompleted todo = false)
  ∧ (∀ todo, todo ∈ getTodos (Some FilterType.completed) this
             ↔ todo ∈ getTodos (Some FilterType.all) this ∧ isCompleted todo = true)
  ∧ (∀ todo, ¬ (todo ∈ getTodos (Some FilterType.active) this ∧ todo ∈ getTodos (Some FilterType.completed) this))
  ∧ (length (getTodos (Some FilterType.active) this) + length (getTodos (Some FilterType.completed) this)
     = length (getTodos (Some FilterType.all) this))%nat
  ∧ sublist (getTodos (Some FilterType.active) this) (getTodos (Some FilterType.all) this)
  ∧ sublist (getTodos (Some FilterType.completed) this) (getTodos (Some FilterType.all) this).
Proof.
  unfold getTodos; simpl.
  assert (Ha : ∀ todo, todo ∈ List.filter (fun todo => negb (isCompleted todo)) (todos this)
                       ↔ todo ∈ todos this ∧ isCompleted todo = false).
  { intros todo. rewrite elem_of_filter_bool. by rewrite negb_true_iff. }
  assert (Hc : ∀ todo, todo ∈ List.filter (fun todo => isCompleted todo) (todos this)
                       ↔ todo ∈ todos this ∧ isCompleted todo = true).
  { intros todo. by rewrite elem_of_filter_bool. }
  split_and!; try done.
  - intros todo. rewrite Ha, Hc. destruct (isCompleted todo); intuition congruence.
  - intros todo. rewrite Ha, Hc. intros [[_ H1] [_ H2]]. congruence.
  - rewrite !filter_bool_length.
    pose proof (countIf_split (fun todo => isCompleted todo) (todos this)). lia.
  - apply filter_bool_sublist.
  - apply filter_bool_sublist.
Qed.

(** ** Toggling *)

(** C10: [toggleTodo] on an id that a task has returns true and replaces
    the first task with that id by the same object with its completed flag
    negated: every other property of that task (its id, text and createdAt
    among them) is as before, every other task is untouched, the sequence
    keeps its length and order, and the filter selection is unchanged. *)
Theorem toggleTodo_changes_only_completed
  (id : jsstring) (this : TodoManager.t) (b : Browser) :
  (∃ todo, todo ∈ todos this ∧ idIs id todo = true) →
  ∃ (i : nat) (todo todo' : Todo),
    todos this !! i = Some todo
    ∧ idIs id todo = true
    ∧ (∀ j other, (j < i)%nat → todos this !! j = Some other → idIs id other = false)
    ∧ (toggleTodo id this b).1.1 = true
    ∧ todos (toggleTodo id this b).1.2 = <[i := todo']> (todos this)
    ∧ todos (toggleTodo id this b).1.2 !! i = Some todo'
    ∧ isCompleted todo' = negb (isCompleted todo)
    ∧ (∀ k, k ≠ lit "completed" → getProp k todo' = getProp k todo)
    ∧ getProp (lit "id") todo' = getProp (lit "id") todo
    ∧ getProp (lit "text") todo' = getProp (lit "text") todo
    ∧ getProp (lit "createdAt") todo' = getProp (lit "createdAt") todo
    ∧ (∀ j, j ≠ i → todos (toggleTodo id this b).1.2 !! j = todos this !! j)
    ∧ length (todos (toggleTodo id this b).1.2) = length (todos this)
    ∧ currentFilter (toggleTodo id this b).1.2 = currentFilter this.
Proof.
  intros (t0 & Hin & Hid).
  destruct (list_find_elem_of (fun todo => idIs id todo = true) (todos this) t0 Hin Hid)
    as [[i todo] Hfind].
  pose proof Hfind as (Hi & Hp & Hfirst)%list_find_Some.
  exists i, todo,
    (setProp (lit "completed") (VJson (JBool (negb (isCompleted todo)))) todo).
  unfold toggleTodo. rewrite Hfind. simpl.
  assert (Hne : ∀ k, k ≠ lit "completed" →
            getProp k (setProp (lit "completed")
                         (VJson (JBool (negb (isCompleted todo)))) todo)
            = getProp k todo).
  { intros k Hk. by apply getProp_setProp_ne. }
  split_and!; try done.
  - intros j other Hj Ho. specialize (Hfirst j other Ho Hj).
    by destruct (idIs id other).
  - apply list_lookup_insert_eq. by eapply lookup_lt_Some.
  - unfold isCompleted at 1. by rewrite getProp_setProp_eq.
  - by apply Hne.
  - by apply Hne.
  - by apply Hne.
  - intros j Hj. by apply list_lookup_insert_ne.
  - apply length_insert.
Qed.

Lemma toggleTodo_changes_only_completed_witness :
  (∃ todo, todo ∈ todos sampleStore
           ∧ idIs (lit "1700000000001-k2j8x0q1z") todo = true)
  ∧ ∃ (i : nat) (todo todo' : Todo),
      todos sampleStore !! i = Some todo
      ∧ todos (toggleTodo (lit "1700000000001-k2j8x0q1z") sampleStore sampleBrowser).1.2
          = <[i := todo']> (todos sampleStore)
      ∧ isCompleted todo' = negb (isCompleted todo).
Proof.
  assert (H : ∃ todo, todo ∈ todos sampleStore
                      ∧ idIs (lit "1700000000001-k2j8x0q1z") todo = true).
  { exists (mkTodo (lit "1700000000001-k2j8x0q1z") (lit "Pay bills") true 1700000000001).
    split; [apply list_elem_of_further, list_elem_of_here|reflexivity]. }
  split; [exact H|].
  destruct (toggleTodo_changes_only_completed _ sampleStore sampleBrowser H)
    as (i & todo & todo' & H1 & _ & _ & _ & H2 & _ & H3 & _).
  by exists i, todo, todo'.
Defined.

(** ** Identifiers *)

Lemma uint_units_digits (u : Decimal.uint) :
  Forall (fun c => isDigit c = true) (uint_units u).
Proof. induction u; simpl; constructor; done. Qed.

Lemma uint_units_inj (u v : Decimal.uint) : uint_units u = uint_units v → u = v.
Proof.
  revert v. induction u; intros v; destruct v; simpl; intros [=]; f_equal; auto.
Qed.

Lemma digits_dash_split (d1 d2 s1 s2 : jsstring) :
  Forall (fun c => isDigit c = true) d1 →
  Forall (fun c => isDigit c = true) d2 →
  d1 ++ 45 :: s1 = d2 ++ 45 :: s2 → d1 = d2 ∧ s1 = s2.
Proof.
  intros H1. revert d2. induction H1 as [|c d1 Hc _ IH]; intros d2 H2 E.
  - destruct H2 as [|c' d2 Hc' _]; simpl in E.
    + by injection E.
    + injection E as <- _. discriminate.
  - destruct H2 as [|c' d2 Hc' H2]; simpl in E.
    + injection E as -> _. discriminate.
    + injection E as -> E. by destruct (IH d2 H2 E) as [-> ->].
Qed.

Lemma NumberToString_dash_split (z1 z2 : Z) (s1 s2 : jsstring) :
  NumberToString z1 ++ 45 :: s1 = NumberToString z2 ++ 45 :: s2 →
  z1 = z2 ∧ s1 = s2.
Proof.
  unfold NumberToString. intros E.
  assert (Hnn : ∀ z u, Z.to_int z = Pos u → ∃ c r, isDigit c = true ∧ uint_units u = c :: r).
  { intros z u Hz.
    assert (Hu : u ≠ Nil).
    { destruct z; simpl in Hz; try discriminate; injection Hz as <-.
      - discriminate.
      - apply DecimalPos.Unsigned.to_uint_nonnil. }
    pose proof (uint_units_digits u) as Hd.
    destruct u; try done; simpl in *; inversion Hd; eauto. }
  assert (Hinj : Z.to_int z1 = Z.to_int z2 → z1 = z2).
  { intros Hi. by rewrite <- (DecimalZ.of_to z1), <- (DecimalZ.of_to z2), Hi. }
  destruct (Z.to_int z1) as [u1|u1] eqn:E1, (Z.to_int z2) as [u2|u2] eqn:E2; simpl in E.
  - destruct (digits_dash_split _ _ _ _ (uint_units_digits u1) (uint_units_digits u2) E)
      as [Hu ->].
    apply uint_units_inj in Hu. subst u2. split; [by apply Hinj|done].
  - destruct (Hnn _ _ E1) as (c & r & Hc & Hr). rewrite Hr in E.
    injection E as -> _. discriminate.
  - destruct (Hnn _ _ E2) as (c & r & Hc & Hr). rewrite Hr in E.
    injection E as <- _. discriminate.
  - injection E as E.
    destruct (digits_dash_split _ _ _ _ (uint_units_digits u1) (uint_units_digits u2) E)
      as [Hu ->].
    apply uint_units_inj in Hu. subst u2. split; [by apply Hinj|done].
Qed.

Lemma generateId_eq_iff (e1 e2 : Entropy) :
  generateId e1 = generateId e2
  ↔ dateNow e1 = dateNow e2
    ∧ substr 2 9 (random36 e1) = substr 2 9 (random36 e2).
Proof.
  unfold generateId. split.
  - apply NumberToString_dash_split.
  - by intros [-> ->].
Qed.

Lemma getProp_id_mkTodo (id text : jsstring) (done : bool) (createdAt : Z) :
  getProp (lit "id") (mkTodo id text done createdAt) = Some (VJson (JStr id)).
Proof. reflexivity. Qed.

Lemma map_insert_same {A B : Type} (f : A -> B) (l : list A) (i : nat) (x x' : A) :
  l !! i = Some x → f x' = f x → map f (<[i := x']> l) = map f l.
Proof.
  revert i. induction l as [|y l IH]; intros [|i] Hi Hf; simpl in *; try done.
  - injection Hi as ->. by rewrite Hf.
  - by rewrite IH.
Qed.

Lemma NoDup_map_filter {A B : Type} (f : A -> B) (g : A -> bool) (l : list A) :
  NoDup (map f l) → NoDup (map f (List.filter g l)).
Proof.
  intros H. eapply sublist_NoDup; [exact H|].
  change (sublist (f <$> List.filter g l) (f <$> l)).
  apply fmap_sublist, filter_bool_sublist.
Qed.

(** C2: the ids are not unique. [generateId] keeps the millisecond and
    nine base-36 digits of the random number, and nothing compares the
    result with the ids in use: on a store constructed without a record,
    two creates in the same millisecond whose random numbers differ only
    after these digits are both accepted and get the same id
    [1700000000000-4fzyo82mv], so that the sequence holds two tasks with
    one id. *)
Lemma same_millisecond_creates_share_an_id :
  random36 entropyA ≠ random36 entropyB
  ∧ generateId entropyA = generateId entropyB
  ∧ ¬ NoDup (ids (run [Create entropyA (lit "Buy milk");
                        Create entropyB (lit "Pay bills")]
                    (constructor plainHost sampleBrowser)).1)
  ∧ generateId entropyA = lit "1700000000000-4fzyo82mv"
  ∧ todos (run [Create entropyA (lit "Buy milk");
                Create entropyB (lit "Pay bills")]
             (constructor plainHost sampleBrowser)).1
    = [ mkTodo (lit "1700000000000-4fzyo82mv") (lit "Buy milk") false 1700000000000;
        mkTodo (lit "1700000000000-4fzyo82mv") (lit "Pay bills") false 1700000000000 ].
Proof.
  split_and!.
  - discriminate.
  - reflexivity.
  - intros H. apply NoDup_cons_1_1 in H. apply H. vm_compute. apply list_elem_of_here.
  - reflexivity.
  - reflexivity.
Qed.

(** What the operations do keep: none of them other than a create adds an
    id, and a create adds the generated one; two generated ids are equal
    exactly when the creates read the same millisecond and draw random
    numbers with the same nine base-36 digits. *)
Lemma ids_stay_unique_while_generated_ids_are_fresh
  (o : op) (this : TodoManager.t) (b : Browser) :
  NoDup (ids this) →
  (∀ e text, o = Create e text → Some (VJson (JStr (generateId e))) ∉ ids this) →
  NoDup (ids (step o (this, b)).1)
  ∧ (∀ e1 e2, generateId e1 = generateId e2
              ↔ dateNow e1 = dateNow e2
                ∧ substr 2 9 (random36 e1) = substr 2 9 (random36 e2)).
Proof.
  intros Hnd Hfresh. split; [|apply generateId_eq_iff].
  destruct o as [e text|id|id| | |f]; simpl.
  - destruct (addTodo_cases e text this b) as [[_ ->]|[_ ->]]; simpl; [|done].
    unfold ids; simpl. rewrite map_app; simpl. apply NoDup_app. split_and!.
    + done.
    + intros x Hx ->%list_elem_of_singleton. by apply (Hfresh e text).
    + apply NoDup_singleton.
  - unfold toggleTodo.
    destruct (list_find _ (todos this)) as [[i todo]|] eqn:Hfind; simpl; [|done].
    apply list_find_Some in Hfind as (Hi & _ & _).
    unfold ids; simpl. erewrite map_insert_same; [done|exact Hi|].
    by apply getProp_setProp_ne.
  - unfold deleteTodo; simpl.
    destruct (_ <? _)%nat; simpl; by apply NoDup_map_filter.
  - unfold clearCompleted; simpl.
    destruct (_ <? _)%nat; simpl; by apply NoDup_map_filter.
  - constructor.
  - done.
Qed.

Lemma ids_stay_unique_while_generated_ids_are_fresh_witness :
  NoDup (ids sampleStore)
  ∧ NoDup (ids (step (Create entropyA (lit "Call home")) (sampleStore, sampleBrowser)).1).
Proof.
  assert (H1 : NoDup (ids sampleStore)).
  { apply NoDup_cons. split; [|apply NoDup_singleton].
    intros H%list_elem_of_singleton. discriminate H. }
  assert (H2 : ∀ e text, Create entropyA (lit "Call home") = Create e text →
                 Some (VJson (JStr (generateId e))) ∉ ids sampleStore).
  { intros e text [= <- _] H.
    apply elem_of_cons in H as [H|H%list_elem_of_singleton]; discriminate H. }
  split; [exact H1|].
  exact (proj1 (ids_stay_unique_while_generated_ids_are_fresh _ _ sampleBrowser H1 H2)).
Defined.

(** ** Calendar arithmetic *)

Section DateFacts.

Lemma DayFromYear_succ (y : Z) :
  DayFromYear (y + 1) = DayFromYear y + DaysInYear y.
Proof.
  unfold DayFromYear, DaysInYear.
  destruct (Z.eqb_spec (y mod 4) 0), (Z.eqb_spec (y mod 100) 0),
    (Z.eqb_spec (y mod 400) 0); simpl; Z.div_mod_to_equations; lia.
Qed.

Lemma YearFromDay_spec (d : Z) :
  DayFromYear (YearFromDay d) ≤ d < DayFromYear (YearFromDay d + 1).
Proof.
  unfold YearFromDay.
  destruct (Z.ltb_spec d (DayFromYear (1970 + 400 * d / 146097))) as [H1|H1].
  - revert H1. unfold DayFromYear. Z.div_mod_to_equations. lia.
  - destruct (Z.leb_spec (DayFromYear (1970 + 400 * d / 146097 + 1)) d) as [H2|H2].
    + revert H1 H2. unfold DayFromYear. Z.div_mod_to_equations. lia.
    + lia.
Qed.

Lemma leapDays_range (y : Z) : leapDays y = 0 ∨ leapDays y = 1.
Proof.
  unfold leapDays, DaysInYear.
  destruct (y mod 4 =? 0), (y mod 100 =? 0), (y mod 400 =? 0); simpl; lia.
Qed.

Lemma DayWithinYear_range (t : Z) :
  0 ≤ DayWithinYear t < 365 + InLeapYear t.
Proof.
  unfold DayWithinYear, InLeapYear, leapDays, YearFromTime.
  pose proof (YearFromDay_spec (Day t)) as H.
  rewrite DayFromYear_succ in H. lia.
Qed.

Lemma YearFromTime_range (t : Z) :
  Z.abs t ≤ maxTime → -271821 ≤ YearFromTime t ≤ 275760.
Proof.
  intros Ht. unfold YearFromTime.
  pose proof (YearFromDay_spec (Day t)) as H.
  assert (Hd : -100000000 ≤ Day t ≤ 100000000).
  { unfold Day, msPerDay. unfold maxTime in Ht. Z.div_mod_to_equations. lia. }
  revert H. generalize (YearFromDay (Day t)) as y. intros y.
  unfold DayFromYear. Z.div_mod_to_equations. lia.
Qed.

Lemma monthOfDay_spec (leap d : Z) :
  (leap = 0 ∨ leap = 1) → 0 ≤ d < 365 + leap →
  0 ≤ monthOfDay leap d ≤ 11
  ∧ firstDayOfMonth leap (monthOfDay leap d) ≤ d
  ∧ d < firstDayOfMonth leap (monthOfDay leap d + 1).
Proof.
  intros Hl Hd. unfold monthOfDay.
  repeat (case Z.ltb_spec; intros ?; [unfold firstDayOfMonth; simpl; lia|]).
  unfold firstDayOfMonth; simpl; lia.
Qed.

Lemma time_fields (t : Z) :
  MakeTime (HourFromTime t) (MinFromTime t) (SecFromTime t) (msFromTime t)
  = TimeWithinDay t.
Proof.
  unfold MakeTime, HourFromTime, MinFromTime, SecFromTime, msFromTime,
    TimeWithinDay, msPerDay, msPerHour, msPerMinute, msPerSecond.
  replace (t / 3600000) with (t / 1000 / 60 / 60)
    by (rewrite !Z.div_div by lia; reflexivity).
  replace (t / 60000) with (t / 1000 / 60)
    by (rewrite !Z.div_div by lia; reflexivity).
  Z.div_mod_to_equations. lia.
Qed.

Lemma date_fields (t : Z) :
  MakeDay (YearFromTime t) (MonthFromTime t) (DateFromTime t) = Day t.
Proof.
  pose proof (DayWithinYear_range t) as Hd.
  pose proof (leapDays_range (YearFromTime t)) as Hl.
  pose proof (monthOfDay_spec (InLeapYear t) (DayWithinYear t) Hl Hd) as (Hm & _ & _).
  unfold MakeDay, DateFromTime. fold (MonthFromTime t) in Hm.
  rewrite Z.div_small, Z.mod_small, Z.add_0_r by lia.
  fold (InLeapYear t). unfold DayWithinYear. lia.
Qed.

Lemma daysInMonth_le_31 (y m : Z) : 0 ≤ m ≤ 11 → daysInMonth y m ≤ 31.
Proof.
  intros Hm. pose proof (leapDays_range y) as Hl.
  assert (Hcases : m = 0 ∨ m = 1 ∨ m = 2 ∨ m = 3 ∨ m = 4 ∨ m = 5 ∨ m = 6
                   ∨ m = 7 ∨ m = 8 ∨ m = 9 ∨ m = 10 ∨ m = 11) by lia.
  unfold daysInMonth, firstDayOfMonth.
  repeat (destruct Hcases as [->|Hcases]; [simpl; lia|]).
  subst m; simpl; lia.
Qed.

Lemma DayFromYear_mono (y1 y2 : Z) : y1 ≤ y2 → DayFromYear y1 ≤ DayFromYear y2.
Proof. unfold DayFromYear. intros H. Z.div_mod_to_equations. lia. Qed.

(** [YearFromDay] is the year of ECMA-262: the largest one that starts
    on or before the day. *)
Lemma YearFromDay_largest (d y : Z) : DayFromYear y ≤ d → y ≤ YearFromDay d.
Proof.
  intros Hy. pose proof (YearFromDay_spec d) as [_ Hlt].
  destruct (Z.le_gt_cases y (YearFromDay d)) as [Hle|Hgt]; [done|].
  pose proof (DayFromYear_mono (YearFromDay d + 1) y). lia.
Qed.

(** The fields of a time value make it up again. *)
Lemma MakeDate_fields (t : Z) :
  MakeDate (MakeDay (YearFromTime t) (MonthFromTime t) (DateFromTime t))
    (MakeTime (HourFromTime t) (MinFromTime t) (SecFromTime t) (msFromTime t))
  = t.
Proof.
  rewrite date_fields, time_fields.
  unfold MakeDate, Day, TimeWithinDay, msPerDay. Z.div_mod_to_equations. lia.
Qed.

End DateFacts.

(** ** Writing and reading the date-time format *)

Section IsoFormat.

Lemma number_digits (w : nat) (acc x : Z) (r : jsstring) :
  number w acc (digits w x ++ r)
  = Some (acc * 10 ^ Z.of_nat w + x mod 10 ^ Z.of_nat w, r).
Proof.
  revert acc. induction w as [|w IH]; intros acc.
  - cbn [digits number app]. f_equal. f_equal.
    change (10 ^ Z.of_nat 0) with 1. rewrite Z.mod_1_r. lia.
  - cbn [digits number app].
    assert (Hp : 0 < 10 ^ Z.of_nat w) by (apply Z.pow_pos_nonneg; lia).
    assert (Hd : 0 ≤ (x / 10 ^ Z.of_nat w) mod 10 < 10) by (apply Z.mod_pos_bound; lia).
    assert (isDigit (48 + (x / 10 ^ Z.of_nat w) mod 10) = true) as ->.
    { unfold isDigit. apply andb_true_iff. split; apply Z.leb_le; lia. }
    rewrite IH. f_equal. f_equal.
    rewrite Nat2Z.inj_succ, Z.pow_succ_r by lia.
    replace (10 * 10 ^ Z.of_nat w) with (10 ^ Z.of_nat w * 10) by ring.
    rewrite Z.rem_mul_r by lia.
    ring.
Qed.

Lemma number_digits_small (w : nat) (x : Z) (r : jsstring) :
  0 ≤ x < 10 ^ Z.of_nat w → number w 0 (digits w x ++ r) = Some (x, r).
Proof. intros Hx. rewrite number_digits, Z.mod_small by done. done. Qed.

Lemma year_yearString (y : Z) (r : jsstring) :
  -999999 ≤ y ≤ 999999 → year (yearString y ++ r) = Some (y, r).
Proof.
  intros Hy. unfold yearString.
  destruct (Z.leb_spec 0 y) as [H0|H0]; [destruct (Z.leb_spec y 9999) as [H1|H1]|];
    cbn [andb].
  - pose proof (number_digits_small 4 y r) as Hn.
    cbn [digits app] in *. unfold year.
    assert (Hd : 0 ≤ (y / 10 ^ Z.of_nat 3) mod 10 < 10) by (apply Z.mod_pos_bound; lia).
    destruct (Z.eqb_spec (48 + (y / 10 ^ Z.of_nat 3) mod 10) 43); [lia|].
    destruct (Z.eqb_spec (48 + (y / 10 ^ Z.of_nat 3) mod 10) 45); [lia|].
    apply Hn. simpl. lia.
  - cbn [app year]. change (43 =? 43) with true. cbv iota.
    rewrite Z.abs_eq by lia. apply number_digits_small. simpl. lia.
  - cbn [app year]. change (45 =? 43) with false. change (45 =? 45) with true.
    cbv iota. rewrite number_digits_small by (simpl; lia).
    destruct (Z.eqb_spec (Z.abs y) 0); [lia|]. do 2 f_equal. lia.
Qed.

Lemma expect_head (c : char16) (r : jsstring) : expect c (c :: r) = Some r.
Proof. unfold expect. by rewrite Z.eqb_refl. Qed.

(** [Date.parse] reads what [toISOString] writes. *)
Lemma parseISO_toISOString (t : Z) :
  Z.abs t ≤ maxTime → parseISO (toISOString t) = Some t.
Proof.
  intros Ht.
  pose proof (YearFromTime_range t Ht) as Hy.
  pose proof (DayWithinYear_range t) as Hd.
  pose proof (leapDays_range (YearFromTime t)) as Hl.
  pose proof (monthOfDay_spec (InLeapYear t) (DayWithinYear t) Hl Hd) as (Hm & Hm1 & Hm2).
  fold (MonthFromTime t) in Hm, Hm1, Hm2.
  assert (Hdate : 1 ≤ DateFromTime t
                  ≤ daysInMonth (YearFromTime t) (MonthFromTime t)).
  { unfold DateFromTime, daysInMonth. fold (InLeapYear t). lia. }
  pose proof (daysInMonth_le_31 (YearFromTime t) (MonthFromTime t) Hm) as Hdate31.
  assert (Hh : 0 ≤ HourFromTime t < 24) by (apply Z.mod_pos_bound; lia).
  assert (Hmi : 0 ≤ MinFromTime t < 60) by (apply Z.mod_pos_bound; lia).
  assert (Hs : 0 ≤ SecFromTime t < 60) by (apply Z.mod_pos_bound; lia).
  assert (Hms : 0 ≤ msFromTime t < 1000) by (apply Z.mod_pos_bound; unfold msPerSecond; lia).
  unfold toISOString, parseISO.
  rewrite year_yearString by lia. cbn [mbind option_bind].
  rewrite expect_head. cbn [mbind option_bind].
  rewrite number_digits_small by (simpl; lia). cbn [mbind option_bind].
  rewrite expect_head. cbn [mbind option_bind].
  rewrite number_digits_small by (simpl; lia). cbn [mbind option_bind].
  rewrite expect_head. cbn [mbind option_bind].
  rewrite number_digits_small by (simpl; lia). cbn [mbind option_bind].
  rewrite expect_head. cbn [mbind option_bind].
  rewrite number_digits_small by (simpl; lia). cbn [mbind option_bind].
  rewrite expect_head. cbn [mbind option_bind].
  rewrite number_digits_small by (simpl; lia). cbn [mbind option_bind].
  rewrite expect_head. cbn [mbind option_bind].
  rewrite number_digits_small by (simpl; lia). cbn [mbind option_bind].
  rewrite expect_head. cbn [mbind option_bind].
  replace (MonthFromTime t + 1 - 1) with (MonthFromTime t) by lia.
  rewrite MakeDate_fields.
  repeat (case Z.leb_spec; intros ?; [|lia]). done.
Qed.

End IsoFormat.

(** ** Persistence *)

Lemma getProp_map {V W : Type} (f : V → W) (k : jsstring) (ps : list (jsstring * V)) :
  getProp k (map (fun p => (fst p, f (snd p))) ps) = f <$> getProp k ps.
Proof.
  induction ps as [|[k' v] ps IH]; simpl; [done|].
  by destruct (bool_decide (k' = k)).
Qed.

Lemma restore_object (h : Host) (ps : list (jsstring * json)) :
  restore h (JObj ps)
  = match newDateOf h (getProp (lit "createdAt") ps) with
    | Normal d =>
        Normal (setProp (lit "createdAt") (VDate d)
                  (map (fun p => (fst p, VJson (snd p))) ps))
    | Throw e => Throw e
    end.
Proof. reflexivity. Qed.

Lemma jsonOfObject_mkTodo (id text : jsstring) (done : bool) (createdAt : Z) :
  jsonOfObject (mkTodo id text done createdAt)
  = JObj [ (lit "id", JStr id); (lit "text", JStr text);
           (lit "completed", JBool done);
           (lit "createdAt", JStr (toISOString createdAt)) ].
Proof. reflexivity. Qed.

Lemma restore_record (h : Host) (id text s : jsstring) (done : bool) :
  restore h (JObj [ (lit "id", JStr id); (lit "text", JStr text);
                    (lit "completed", JBool done); (lit "createdAt", JStr s) ])
  = Normal [ (lit "id", VJson (JStr id)); (lit "text", VJson (JStr text));
             (lit "completed", VJson (JBool done));
             (lit "createdAt", VDate (Date_parse h s)) ].
Proof. reflexivity. Qed.

Lemma restore_task (h : Host) (todo : Todo) :
  isTask todo → restore h (jsonOfObject todo) = Normal todo.
Proof.
  intros (id & text & done & t & -> & Ht).
  rewrite jsonOfObject_mkTodo, restore_record.
  unfold Date_parse. rewrite parseISO_toISOString by done.
  unfold TimeClip. destruct (Z.ltb_spec maxTime (Z.abs t)); [lia|done].
Qed.

Lemma restoreAll_tasks (h : Host) (l : list Todo) :
  Forall isTask l → restoreAll h (map jsonOfObject l) = Normal l.
Proof.
  induction 1 as [|todo l Htodo _ IH]; simpl; [done|].
  by rewrite restore_task, IH.
Qed.

Lemma saveToLocalStorage_item (this : TodoManager.t) (b : Browser) :
  setItemThrows b = false →
  todosItem (saveToLocalStorage this b)
    = Some (Encodes (JArr (map jsonOfObject (todos this))))
  ∧ getItemThrows (saveToLocalStorage this b) = getItemThrows b
  ∧ setItemThrows (saveToLocalStorage this b) = false.
Proof. intros H. unfold saveToLocalStorage, setItem. by rewrite H. Qed.

Lemma constructor_of_saved (h : Host) (b : Browser) (l : list Todo) :
  getItemThrows b = false →
  todosItem b = Some (Encodes (JArr (map jsonOfObject l))) →
  Forall isTask l →
  constructor h b = ({| todos := l; currentFilter := FilterType.all |}, b).
Proof.
  intros Hg Hi Hl. unfold constructor, loadFromLocalStorage, tryLoad, getItem.
  rewrite Hg, Hi. simpl. by rewrite restoreAll_tasks.
Qed.







(** In a session whose clock readings are time values, a store of tasks of
    the data model stays one. *)
Lemma session_keeps_tasks (ops : list op) (this : TodoManager.t) (b : Browser) :
  Forall validClock ops →
  Forall isTask (todos this) →
  Forall isTask (todos (run ops (this, b)).1).
Proof.
  intros Hops. revert this b. induction Hops as [|o ops Ho _ IH]; intros this b Ht.
  { done. }
  simpl. destruct (step o (this, b)) as [this' b'] eqn:E. apply IH.
  destruct o as [e text|id|id| | |f]; simpl in E.
  - destruct (addTodo_cases e text this b) as [[_ Ha]|[_ Ha]];
      rewrite Ha in E; injection E as <- _; simpl; [|done].
    apply Forall_app. split; [done|]. constructor; [|done].
    by eexists _, _, _, _.
  - unfold toggleTodo in E.
    destruct (list_find _ (todos this)) as [[i todo]|] eqn:Hfind;
      injection E as <- _; simpl; [|done].
    apply list_find_Some in Hfind as (Hi & _ & _).
    apply Forall_insert; [done|].
    pose proof (Forall_lookup_1 _ _ _ _ Ht Hi) as (id0 & text & done & t & -> & Hb).
    by exists id0, text, (negb (isCompleted (mkTodo id0 text done t))), t.
  - unfold deleteTodo in E; simpl in E.
    destruct (_ <? _)%nat; injection E as <- _; simpl; by apply Forall_filter_bool.
  - unfold clearCompleted in E; simpl in E.
    destruct (_ <? _)%nat; injection E as <- _; simpl; by apply Forall_filter_bool.
  - injection E as <- _. constructor.
  - by injection E as <- _.
Qed.

(** ** Write-through *)

Lemma filter_bool_same_length {A : Type} (f : A -> bool) (l : list A) :
  length (List.filter f l) = length l → List.filter f l = l.
Proof.
  induction l as [|x l IH]; simpl; [done|].
  pose proof (filter_bool_length f l) as Hc. pose proof (countIf_le f l) as Hle.
  destruct (f x); simpl; intros Hlen.
  - f_equal. apply IH. lia.
  - lia.
Qed.

Lemma saveToLocalStorage_sync (this : TodoManager.t) (b : Browser) :
  storageWorks b →
  storageWorks (saveToLocalStorage this b) ∧ inSync (this, saveToLocalStorage this b).
Proof.
  intros [Hg Hs]. destruct (saveToLocalStorage_item this b Hs) as (Hi & Hg' & Hs').
  split; [split; congruence|]. by right.
Qed.

Lemma step_keeps_sync (o : op) (w : TodoManager.t * Browser) :
  storageWorks w.2 → inSync w → storageWorks (step o w).2 ∧ inSync (step o w).
Proof.
  destruct w as [this b]. intros Hw Hsync.
  destruct o as [e text|id|id| | |f]; simpl.
  - destruct (addTodo_cases e text this b) as [[_ ->]|[_ ->]]; simpl; [|done].
    by apply saveToLocalStorage_sync.
  - unfold toggleTodo.
    destruct (list_find _ (todos this)) as [[i todo]|]; simpl; [|done].
    by apply saveToLocalStorage_sync.
  - unfold deleteTodo; simpl.
    destruct (Nat.ltb_spec
                (length (List.filter (fun todo => negb (idIs id todo)) (todos this)))
                (length (todos this))) as [Hlt|Hge]; simpl.
    + by apply saveToLocalStorage_sync.
    + rewrite filter_bool_same_length; [by destruct this|].
      pose proof (filter_bool_length (fun todo => negb (idIs id todo)) (todos this)).
      pose proof (countIf_le (fun todo => negb (idIs id todo)) (todos this)). lia.
  - unfold clearCompleted; simpl.
    destruct (Nat.ltb_spec 0
                (length (todos this)
                 - length (List.filter (fun todo => negb (isCompleted todo)) (todos this))))
      as [Hlt|Hge]; simpl.
    + by apply saveToLocalStorage_sync.
    + rewrite filter_bool_same_length; [by destruct this|].
      pose proof (filter_bool_length (fun todo => negb (isCompleted todo)) (todos this)).
      pose proof (countIf_le (fun todo => negb (isCompleted todo)) (todos this)). lia.
  - unfold clearAll. by apply saveToLocalStorage_sync.
  - done.
Qed.

Lemma run_keeps_sync (ops : list op) (w : TodoManager.t * Browser) :
  storageWorks w.2 → inSync w → storageWorks (run ops w).2 ∧ inSync (run ops w).
Proof.
  revert w. induction ops as [|o ops IH]; intros w Hw Hs; simpl; [done|].
  destruct (step_keeps_sync o w Hw Hs). by apply IH.
Qed.

(** X20: after any session that started without a stored record, on a
    storage that works and with clock readings that are time values, a new
    store constructed against the storage holds the tasks of the old
    one. *)
Lemma reload_after_session (h : Host) (ops : list op) (b : Browser) :
  Forall validClock ops →
  todosItem b = None →
  storageWorks b →
  todos (constructor h (run ops (constructor h b)).2).1
  = todos (run ops (constructor h b)).1.
Proof.
  intros Hops Hnone Hw.
  assert (Hc : constructor h b = ({| todos := []; currentFilter := FilterType.all |}, b)).
  { unfold constructor, loadFromLocalStorage, tryLoad, getItem.
    destruct Hw as [-> _]. by rewrite Hnone. }
  rewrite Hc.
  pose proof (session_keeps_tasks ops {| todos := []; currentFilter := FilterType.all |} b Hops
                (List.Forall_nil _)) as Htasks.
  destruct (run_keeps_sync ops ({| todos := []; currentFilter := FilterType.all |}, b) Hw)
    as [[Hg Hs] Hsync]; [by left|].
  destruct (run ops ({| todos := []; currentFilter := FilterType.all |}, b)) as [this' b'].
  unfold inSync in Hsync. simpl in *. destruct Hsync as [[Hi Ht]|Hi].
  - rewrite Ht. unfold constructor, loadFromLocalStorage, tryLoad, getItem.
    by rewrite Hg, Hi.
  - by rewrite (constructor_of_saved h b' (todos this') Hg Hi Htasks).
Qed.

Lemma reload_after_session_witness :
  Forall validClock scenarioOps
  ∧ todos (constructor plainHost
             (run scenarioOps (constructor plainHost sampleBrowser)).2).1
    = todos (run scenarioOps (constructor plainHost sampleBrowser)).1.
Proof.
  assert (H : Forall validClock scenarioOps).
  { repeat (apply List.Forall_cons; [simpl; unfold maxTime; lia|]).
    apply List.Forall_nil. }
  split; [exact H|].
  exact (reload_after_session plainHost scenarioOps sampleBrowser H eq_refl
           (conj eq_refl eq_refl)).
Defined.

(** ** Loading a foreign or damaged record *)




(** ** Scenarios of the test suite *)

Example trim_strips_both_ends :
  trim (lit "  Spaties voor en na  ") = lit "Spaties voor en na".
Proof. reflexivity. Qed.

Example only_spaces_rejected :
  (addTodo entropyA (lit "     ") sampleStore sampleBrowser).1.1 = None.
Proof. reflexivity. Qed.

Example length_200_accepted :
  is_Some (addTodo entropyA (replicate 200 97) sampleStore sampleBrowser).1.1.
Proof. vm_compute. by eexists. Qed.

Example length_201_rejected :
  addTodo entropyA (replicate 201 97) sampleStore sampleBrowser
  = (None, sampleStore, sampleBrowser).
Proof. vm_compute. reflexivity. Qed.

Example generated_id : generateId entropyA = lit "1700000000000-4fzyo82mv".
Proof. vm_compute. reflexivity. Qed.

Example scenario_stats :
  getStats (run scenarioOps (constructor plainHost sampleBrowser)).1
  = {| total := 2; active := 1; completed := 1 |}.
Proof. vm_compute. reflexivity. Qed.

Example scenario_completed_view :
  getTodos (Some FilterType.completed) (run scenarioOps (constructor plainHost sampleBrowser)).1
  = [ mkTodo (lit "1700000000005-k2j8x0q1z") (lit "Pay bills") true 1700000000005 ].
Proof. vm_compute. reflexivity. Qed.

Example scenario_record :
  todosItem (run scenarioOps (constructor plainHost sampleBrowser)).2
  = Some (Encodes (JArr
      [ JObj [ (lit "id", JStr (lit "1700000000000-4fzyo82mv"));
               (lit "text", JStr (lit "Buy milk"));
               (lit "completed", JBool false);
               (lit "createdAt", JStr (lit "2023-11-14T22:13:20.000Z")) ];
        JObj [ (lit "id", JStr (lit "1700000000005-k2j8x0q1z"));
               (lit "text", JStr (lit "Pay bills"));
               (lit "completed", JBool true);
               (lit "createdAt", JStr (lit "2023-11-14T22:13:20.005Z")) ] ])).
Proof. vm_compute. reflexivity. Qed.

Example scenario_reload :
  todos (constructor plainHost
           (run scenarioOps (constructor plainHost sampleBrowser)).2).1
  = todos (run scenarioOps (constructor plainHost sampleBrowser)).1.
Proof. vm_compute. reflexivity. Qed.

Example corrupted_record_starts_empty :
  getTodos (Some FilterType.all)
    (constructor plainHost
       {| todosItem := Some Garbled; getItemThrows := false;
          setItemThrows := false; setItemCalls := 0; consoleErrors := 0 |}).1
  = [].
Proof. reflexivity. Qed.

Example epoch_iso : toISOString 0 = lit "1970-01-01T00:00:00.000Z".
Proof. vm_compute. reflexivity. Qed.

Example last_time_value_iso :
  toISOString maxTime = lit "+275760-09-13T00:00:00.000Z".
Proof. vm_compute. reflexivity. Qed.

(** * Further properties of the store *)

(** ** Helper facts *)

Lemma countIf_pos {A : Type} (f : A -> bool) (l : list A) (x : A) :
  x ∈ l → f x = true → (0 < countIf f l)%nat.
Proof.
  induction 1 as [y l|y z l _ IH]; simpl; intros Hx.
  - rewrite Hx. lia.
  - destruct (f z); [lia|by apply IH].
Qed.

Lemma filter_bool_filter {A : Type} (f : A -> bool) (l : list A) :
  List.filter f (List.filter f l) = List.filter f l.
Proof.
  apply filter_bool_all, Forall_forall. by intros x [_ Hx]%elem_of_filter_bool.
Qed.

Lemma deleteTodo_absent (id : jsstring) (this : TodoManager.t) (b : Browser) :
  Forall (fun todo => idIs id todo = false) (todos this) →
  deleteTodo id this b = (false, this, b).
Proof.
  intros Hnone. unfold deleteTodo; simpl. rewrite filter_bool_all.
  - rewrite Nat.ltb_irrefl. by destruct this.
  - eapply Forall_impl; [exact Hnone|]. by intros x ->.
Qed.

Lemma find_list_find {A : Type} (f : A -> bool) (l : list A) :
  List.find f l = snd <$> list_find (fun x => f x = true) l.
Proof.
  induction l as [|x l IH]; simpl; [done|].
  unfold list_find; simpl. fold (list_find (fun x => f x = true) l).
  destruct (decide (f x = true)) as [->|Hx]; simpl; [done|].
  destruct (f x); [done|]. rewrite IH.
  by destruct (list_find _ l) as [[i y]|].
Qed.

Lemma list_find_insert_same {A : Type} (P : A → Prop) `{∀ x, Decision (P x)}
  (l : list A) (i : nat) (x x' : A) :
  list_find P l = Some (i, x) → P x' → list_find P (<[i := x']> l) = Some (i, x').
Proof.
  intros (Hi & Hx & Hfirst)%list_find_Some Hx'. apply list_find_Some. split_and!.
  - apply list_lookup_insert_eq. by eapply lookup_lt_Some.
  - done.
  - intros j y Hj Hlt. rewrite list_lookup_insert_ne in Hj by lia. by eapply Hfirst.
Qed.

(** ** Deleting *)

(** X1: [deleteTodo] on an id that some task has returns true and removes
    every task with that id, not only the first; the other tasks stay, in
    their order; the filter selection is kept and the store is written
    once. *)
Theorem deleteTodo_removes_every_task_with_the_id
  (id : jsstring) (this : TodoManager.t) (b : Browser) :
  (∃ todo, todo ∈ todos this ∧ idIs id todo = true) →
  (deleteTodo id this b).1.1 = true
  ∧ (∀ todo, todo ∈ todos (deleteTodo id this b).1.2
             ↔ todo ∈ todos this ∧ idIs id todo = false)
  ∧ sublist (todos (deleteTodo id this b).1.2) (todos this)
  ∧ (length (todos (deleteTodo id this b).1.2) + countIf (idIs id) (todos this)
     = length (todos this))%nat
  ∧ currentFilter (deleteTodo id this b).1.2 = currentFilter this
  ∧ (deleteTodo id this b).2 = saveToLocalStorage (deleteTodo id this b).1.2 b
  ∧ setItemCalls (deleteTodo id this b).2 = S (setItemCalls b).
Proof.
  intros (t0 & Hin & Hid).
  pose proof (countIf_pos (idIs id) (todos this) t0 Hin Hid) as Hpos.
  pose proof (countIf_split (idIs id) (todos this)) as Hsplit.
  pose proof (filter_bool_length (fun todo => negb (idIs id todo)) (todos this)) as Hlen.
  unfold deleteTodo; simpl.
  destruct (Nat.ltb_spec
              (length (List.filter (fun todo => negb (idIs id todo)) (todos this)))
              (length (todos this))) as [_|Hge]; [|lia]. simpl.
  rewrite saveToLocalStorage_calls. split_and!; try done.
  - intros todo. rewrite elem_of_filter_bool. by rewrite negb_true_iff.
  - apply filter_bool_sublist.
  - lia.
Qed.

Lemma deleteTodo_removes_every_task_with_the_id_witness :
  (∃ todo, todo ∈ todos sampleStore
           ∧ idIs (lit "1699999999999-abcdefghi") todo = true)
  ∧ (deleteTodo (lit "1699999999999-abcdefghi") sampleStore sampleBrowser).1.1 = true.
Proof.
  assert (H : ∃ todo, todo ∈ todos sampleStore
                      ∧ idIs (lit "1699999999999-abcdefghi") todo = true).
  { exists (mkTodo (lit "1699999999999-abcdefghi") (lit "Buy milk") false 1699999999999).
    split; [apply list_elem_of_here|reflexivity]. }
  split; [exact H|].
  exact (proj1 (deleteTodo_removes_every_task_with_the_id _ sampleStore sampleBrowser H)).
Defined.

(** X2: once [deleteTodo] has run for an id, no task has that id:
    [getTodoById] finds nothing, and a second [deleteTodo] for it returns
    false and leaves the store and the storage alone. *)
Theorem deleteTodo_then_the_id_is_gone
  (id : jsstring) (this : TodoManager.t) (b b' : Browser) :
  getTodoById id (deleteTodo id this b).1.2 = None
  ∧ Forall (fun todo => idIs id todo = false) (todos (deleteTodo id this b).1.2)
  ∧ deleteTodo id (deleteTodo id this b).1.2 b'
    = (false, (deleteTodo id this b).1.2, b')
  ∧ toggleTodo id (deleteTodo id this b).1.2 b'
    = (false, (deleteTodo id this b).1.2, b').
Proof.
  assert (Hgone : Forall (fun todo => idIs id todo = false)
                    (todos (deleteTodo id this b).1.2)).
  { assert (todos (deleteTodo id this b).1.2
            = List.filter (fun todo => negb (idIs id todo)) (todos this)) as ->.
    { unfold deleteTodo; simpl. by destruct (_ <? _)%nat. }
    apply Forall_forall. intros x [_ Hx]%elem_of_filter_bool.
    by apply negb_true_iff. }
  assert (Hfind : list_find (fun todo => idIs id todo = true)
                    (todos (deleteTodo id this b).1.2) = None).
  { apply list_find_None. eapply Forall_impl; [exact Hgone|].
    intros x Hx. simpl. congruence. }
  split_and!.
  - unfold getTodoById. by rewrite find_list_find, Hfind.
  - done.
  - by apply deleteTodo_absent.
  - unfold toggleTodo. by rewrite Hfind.
Qed.

(** ** Looking up *)

(** X3: [getTodoById] returns the first task of the sequence that has the
    id, the one [toggleTodo] would change, and returns undefined exactly
    when no task has the id. *)
Theorem getTodoById_returns_the_first_match (id : jsstring) (this : TodoManager.t) :
  getTodoById id this
    = snd <$> list_find (fun todo => idIs id todo = true) (todos this)
  ∧ (∀ todo, getTodoById id this = Some todo →
       ∃ i, todos this !! i = Some todo
            ∧ idIs id todo = true
            ∧ ∀ j other, (j < i)%nat → todos this !! j = Some other →
                         idIs id other = false)
  ∧ (getTodoById id this = None
     ↔ Forall (fun todo => idIs id todo = false) (todos this)).
Proof.
  assert (Hf : getTodoById id this
               = snd <$> list_find (fun todo => idIs id todo = true) (todos this)).
  { apply find_list_find. }
  rewrite Hf. split_and!; [done| |].
  - intros todo Hsome.
    destruct (list_find _ (todos this)) as [[i x]|] eqn:Hfind; [|done].
    injection Hsome as ->. apply list_find_Some in Hfind as (Hi & Hx & Hfirst).
    exists i. split_and!; [done..|].
    intros j other Hj Ho. specialize (Hfirst j other Ho Hj). by destruct (idIs id other).
  - destruct (list_find _ (todos this)) as [[i x]|] eqn:Hfind.
    + split; [done|]. intros Hall. exfalso.
      apply list_find_Some in Hfind as (Hi & Hx & _).
      apply list_elem_of_lookup_2 in Hi.
      rewrite Forall_forall in Hall. specialize (Hall x Hi). simpl in *. congruence.
    + split; [|done]. intros _. apply list_find_None in Hfind.
      eapply Forall_impl; [exact Hfind|]. intros x Hx. simpl in Hx.
      by destruct (idIs id x).
Qed.

(** ** Toggling twice *)

Lemma toggleTodo_found (id : jsstring) (this : TodoManager.t) (b : Browser)
  (i : nat) (todo : Todo) :
  list_find (fun todo => idIs id todo = true) (todos this) = Some (i, todo) →
  toggleTodo id this b
  = (true,
     {| todos := <[i := setProp (lit "completed")
                          (VJson (JBool (negb (isCompleted todo)))) todo]> (todos this);
        currentFilter := currentFilter this |},
     saveToLocalStorage
       {| todos := <[i := setProp (lit "completed")
                            (VJson (JBool (negb (isCompleted todo)))) todo]> (todos this);
          currentFilter := currentFilter this |} b).
Proof. intros H. unfold toggleTodo. by rewrite H. Qed.

Lemma isCompleted_toggled (todo : Todo) (c : bool) :
  isCompleted (setProp (lit "completed") (VJson (JBool c)) todo) = c.
Proof. unfold isCompleted. by rewrite getProp_setProp_eq. Qed.

Lemma idIs_toggled (id : jsstring) (todo : Todo) (v : value) :
  idIs id (setProp (lit "completed") v todo) = idIs id todo.
Proof. unfold idIs. by rewrite getProp_setProp_ne. Qed.

(** X4: two calls of [toggleTodo] with the same id give every task its
    completed flag back and keep the ids; a store of tasks of the data
    model is then exactly what it was. Both calls return the same
    boolean. *)
Theorem toggleTodo_twice_restores_the_flags
  (id : jsstring) (this : TodoManager.t) (b b' : Browser) :
  map isCompleted (todos (toggleTodo id (toggleTodo id this b).1.2 b').1.2)
    = map isCompleted (todos this)
  ∧ ids (toggleTodo id (toggleTodo id this b).1.2 b').1.2 = ids this
  ∧ (toggleTodo id (toggleTodo id this b).1.2 b').1.1 = (toggleTodo id this b).1.1
  ∧ (Forall isTask (todos this) →
       (toggleTodo id (toggleTodo id this b).1.2 b').1.2 = this).
Proof.
  destruct (list_find (fun todo => idIs id todo = true) (todos this))
    as [[i todo]|] eqn:Hfind.
  - rewrite (toggleTodo_found id this b i todo Hfind). simpl.
    set (todo1 := setProp (lit "completed")
                    (VJson (JBool (negb (isCompleted todo)))) todo).
    assert (Hfind1 : list_find (fun todo => idIs id todo = true)
                       (<[i := todo1]> (todos this)) = Some (i, todo1)).
    { eapply list_find_insert_same; [exact Hfind|]. unfold todo1.
      rewrite idIs_toggled. by apply list_find_Some in Hfind as (_ & ? & _). }
    rewrite (toggleTodo_found id
               {| todos := <[i := todo1]> (todos this);
                  currentFilter := currentFilter this |} b' i todo1 Hfind1). simpl.
    rewrite list_insert_insert_eq.
    apply list_find_Some in Hfind as (Hi & _ & _).
    set (todo2 := setProp (lit "completed")
                    (VJson (JBool (negb (isCompleted todo1)))) todo1).
    assert (Hc : isCompleted todo2 = isCompleted todo).
    { unfold todo2, todo1. rewrite !isCompleted_toggled. by destruct (isCompleted todo). }
    split_and!; try done.
    + by apply (map_insert_same isCompleted _ i todo).
    + unfold ids; simpl. apply (map_insert_same _ _ i todo); [done|].
      unfold todo2, todo1. by rewrite !getProp_setProp_ne.
    + intros Htasks.
      pose proof (Forall_lookup_1 _ _ _ _ Htasks Hi) as (id0 & text & c & t & -> & _).
      assert (todo2 = mkTodo id0 text c t) as ->.
      { unfold todo2, todo1. by destruct c. }
      rewrite list_insert_id by done. by destruct this.
  - assert (Hno : ∀ b0, toggleTodo id this b0 = (false, this, b0)).
    { intros b0. unfold toggleTodo. by rewrite Hfind. }
    by rewrite !Hno.
Qed.

(** ** Clearing *)

(** X5: after [clearCompleted] no task is completed: the completed count
    and the completed view are empty, the active view is the whole
    sequence, and a second [clearCompleted] returns 0 and changes neither
    the store nor the storage. *)
Theorem clearCompleted_leaves_nothing_to_clear
  (this : TodoManager.t) (b b' : Browser) :
  Forall (fun todo => isCompleted todo = false) (todos (clearCompleted this b).1.2)
  ∧ completed (getStats (clearCompleted this b).1.2) = O
  ∧ active (getStats (clearCompleted this b).1.2)
    = total (getStats (clearCompleted this b).1.2)
  ∧ getTodos (Some FilterType.completed) (clearCompleted this b).1.2 = []
  ∧ getTodos (Some FilterType.active) (clearCompleted this b).1.2
    = todos (clearCompleted this b).1.2
  ∧ clearCompleted (clearCompleted this b).1.2 b'
    = (O, (clearCompleted this b).1.2, b').
Proof.
  assert (Ht : todos (clearCompleted this b).1.2
               = List.filter (fun todo => negb (isCompleted todo)) (todos this)).
  { unfold clearCompleted; simpl. by destruct (_ <? _)%nat. }
  generalize dependent (clearCompleted this b).1.2. intros s Ht.
  assert (Hall : Forall (fun todo => negb (isCompleted todo) = true) (todos s)).
  { rewrite Ht. apply Forall_forall. by intros x [_ Hx]%elem_of_filter_bool. }
  assert (Hact : List.filter (fun todo => negb (isCompleted todo)) (todos s) = todos s).
  { by apply filter_bool_all. }
  assert (Hnone : List.filter (fun todo => isCompleted todo) (todos s) = []).
  { clear Ht Hact. induction Hall as [|x l Hx _ IH]; simpl; [done|].
    apply negb_true_iff in Hx. by rewrite Hx. }
  unfold getStats, getTodos, clearCompleted; simpl.
  rewrite Hact, Hnone, Nat.sub_diag. simpl. split_and!; try done.
  - eapply Forall_impl; [exact Hall|]. intros x Hx. by apply negb_true_iff.
  - by destruct s.
Qed.

(** X6: [clearAll] empties the store, keeps the filter selection and
    calls [setItem] once whatever the store held, also when it was empty
    already; where the storage accepts the write the record is the empty
    array, and a store constructed from it is empty. *)
Theorem clearAll_empties_and_always_writes
  (h : Host) (this : TodoManager.t) (b : Browser) :
  todos (clearAll this b).1 = []
  ∧ currentFilter (clearAll this b).1 = currentFilter this
  ∧ getStats (clearAll this b).1 = {| total := 0; active := 0; completed := 0 |}
  ∧ setItemCalls (clearAll this b).2 = S (setItemCalls b)
  ∧ (setItemThrows b = false →
       todosItem (clearAll this b).2 = Some (Encodes (JArr []))
       ∧ (getItemThrows b = false →
            todos (constructor h (clearAll this b).2).1 = []))
  ∧ (setItemThrows b = true →
       todosItem (clearAll this b).2 = todosItem b).
Proof.
  unfold clearAll; simpl. rewrite saveToLocalStorage_calls.
  split_and!; try done.
  - intros Hs. destruct (saveToLocalStorage_item
                           {| todos := []; currentFilter := currentFilter this |} b Hs)
      as (Hi & Hg & _).
    split; [done|]. intros Hg'. rewrite Hg' in Hg.
    unfold constructor, loadFromLocalStorage, tryLoad, getItem. by rewrite Hg, Hi.
  - intros Hs. unfold saveToLocalStorage, setItem. by rewrite Hs.
Qed.

(** ** The filter selection *)

(** [getTodos] without an argument shows the view selected by the last
    [setFilter], an explicit argument overrides the selection, and
    [setFilter] changes neither the tasks nor the counts; a new store
    selects the full view. *)
Theorem setFilter_selects_the_default_view
  (h : Host) (b : Browser) (f g : FilterType.t) (this : TodoManager.t) :
  getCurrentFilter (setFilter f this) = f
  ∧ getTodos None (setFilter f this) = getTodos (Some f) this
  ∧ getTodos (Some g) (setFilter f this) = getTodos (Some g) this
  ∧ todos (setFilter f this) = todos this
  ∧ getStats (setFilter f this) = getStats this
  ∧ setFilter g (setFilter f this) = setFilter g this
  ∧ getTodos None (constructor h b).1 = todos (constructor h b).1.
Proof.
  split_and!; try done.
  unfold constructor, loadFromLocalStorage, getTodos.
  by destruct (tryLoad h b) as [[l|]|e].
Qed.

(** ** The store and its storage *)

Lemma step_store_and_storage (o : op) (this : TodoManager.t) (b : Browser) :
  ∃ (this' : TodoManager.t) (wrote : bool),
    ∀ b0, step o (this, b0)
          = (this', if wrote then saveToLocalStorage this' b0 else b0).
Proof.
  destruct o as [e text|id|id| | |f]; simpl.
  - destruct (addTodo_cases e text this b) as [[Hlen _]|[Hlen _]].
    + eexists _, true. intros b0.
      destruct (addTodo_cases e text this b0) as [[_ ->]|[Hn _]]; [done|by destruct Hn].
    + exists this, false. intros b0.
      destruct (addTodo_cases e text this b0) as [[Hn _]|[_ ->]]; [by destruct Hlen|done].
  - destruct (list_find (fun todo => idIs id todo = true) (todos this))
      as [[i todo]|] eqn:Hfind.
    + eexists _, true. intros b0. by rewrite (toggleTodo_found id this b0 i todo Hfind).
    + exists this, false. intros b0. unfold toggleTodo. by rewrite Hfind.
  - unfold deleteTodo; simpl. destruct (_ <? _)%nat.
    + eexists _, true. intros b0. simpl. reflexivity.
    + eexists _, false. intros b0. simpl. reflexivity.
  - unfold clearCompleted; simpl. destruct (_ <? _)%nat.
    + eexists _, true. intros b0. simpl. reflexivity.
    + eexists _, false. intros b0. simpl. reflexivity.
  - eexists _, true. intros b0. simpl. reflexivity.
  - eexists _, false. intros b0. simpl. reflexivity.
Qed.

Lemma saveToLocalStorage_cases (this : TodoManager.t) (b : Browser) :
  (setItemThrows b = false
   ∧ saveToLocalStorage this b
     = {| todosItem := Some (Encodes (JArr (map jsonOfObject (todos this))));
          getItemThrows := getItemThrows b; setItemThrows := setItemThrows b;
          setItemCalls := S (setItemCalls b); consoleErrors := consoleErrors b |})
  ∨ (setItemThrows b = true
     ∧ saveToLocalStorage this b
       = {| todosItem := todosItem b;
            getItemThrows := getItemThrows b; setItemThrows := setItemThrows b;
            setItemCalls := S (setItemCalls b);
            consoleErrors := S (consoleErrors b) |}).
Proof.
  unfold saveToLocalStorage, setItem. destruct (setItemThrows b); [by right|by left].
Qed.

(** X7: what an operation does to the store does not depend on the
    storage: with any two browsers the resulting store is the same. An
    operation calls [setItem] at most once, what it writes is the store as
    the operation leaves it, and it never reads the storage nor changes
    whether the storage can be read or written. *)
Theorem operations_act_on_memory_and_write_through
  (o : op) (this : TodoManager.t) (b b' : Browser) :
  (step o (this, b)).1 = (step o (this, b')).1
  ∧ ((step o (this, b)).2 = b
     ∨ (step o (this, b)).2 = saveToLocalStorage (step o (this, b)).1 b)
  ∧ (setItemCalls b ≤ setItemCalls (step o (this, b)).2 ≤ S (setItemCalls b))%nat
  ∧ (setItemCalls (step o (this, b)).2 = S (setItemCalls b) →
     setItemThrows b = false →
       todosItem (step o (this, b)).2
       = Some (Encodes (JArr (map jsonOfObject (todos (step o (this, b)).1)))))
  ∧ getItemThrows (step o (this, b)).2 = getItemThrows b
  ∧ setItemThrows (step o (this, b)).2 = setItemThrows b.
Proof.
  destruct (step_store_and_storage o this b) as (this' & wrote & Hstep).
  rewrite !Hstep. simpl. destruct wrote.
  - destruct (saveToLocalStorage_cases this' b) as [[Hs ->]|[Hs ->]]; simpl;
      split_and!; try done; try lia; try (by right).
    intros _ Hs'. congruence.
  - split_and!; try done; try lia; try (by left).
Qed.

(** X8: when the storage refuses writes, an operation leaves the stored
    record as it was and reports each refused write once on the console,
    while the store in memory is updated as usual. *)
Theorem refused_writes_are_logged_not_raised
  (o : op) (this : TodoManager.t) (b : Browser) :
  setItemThrows b = true →
  todosItem (step o (this, b)).2 = todosItem b
  ∧ (consoleErrors (step o (this, b)).2 + setItemCalls b
     = consoleErrors b + setItemCalls (step o (this, b)).2)%nat
  ∧ ∀ b', (step o (this, b)).1 = (step o (this, b')).1.
Proof.
  intros Hs. destruct (step_store_and_storage o this b) as (this' & wrote & Hstep).
  rewrite Hstep. simpl. destruct wrote.
  - destruct (saveToLocalStorage_cases this' b) as [[Hs' _]|[_ ->]]; [congruence|].
    simpl. split_and!; [done|lia|]. intros b'. by rewrite Hstep.
  - split_and!; [done|lia|]. intros b'. by rewrite Hstep.
Qed.

Lemma refused_writes_are_logged_not_raised_witness :
  setItemThrows fullBrowser = true
  ∧ todosItem (step (Create entropyA (lit "Buy milk")) (sampleStore, fullBrowser)).2
    = todosItem fullBrowser.
Proof.
  split; [reflexivity|].
  exact (proj1 (refused_writes_are_logged_not_raised
                  (Create entropyA (lit "Buy milk")) sampleStore fullBrowser eq_refl)).
Defined.

(** ** Creating, then looking up and counting *)

Lemma countIf_insert {A : Type} (f : A -> bool) (l : list A) (i : nat) (x x' : A) :
  l !! i = Some x →
  (countIf f (<[i := x']> l) + (if f x then 1 else 0)
   = countIf f l + (if f x' then 1 else 0))%nat.
Proof.
  revert i. induction l as [|y l IH]; intros [|i] Hi; simpl in *; try done.
  - injection Hi as ->. destruct (f x), (f x'); lia.
  - specialize (IH i Hi). destruct (f y); lia.
Qed.

Lemma find_app_bool {A : Type} (f : A -> bool) (l k : list A) :
  List.find f (l ++ k)
  = match List.find f l with Some x => Some x | None => List.find f k end.
Proof. induction l as [|x l IH]; simpl; [done|]. by destruct (f x). Qed.

(** X9: after an accepted [addTodo], [getTodoById] with the new id
    returns the new task when no older task has that id, and otherwise
    still returns the older task, which hides the new one. *)
Theorem getTodoById_after_addTodo
  (e : Entropy) (text : jsstring) (this : TodoManager.t) (b : Browser) (todo : Todo) :
  (addTodo e text this b).1.1 = Some todo →
  idIs (generateId e) todo = true
  ∧ getTodoById (generateId e) (addTodo e text this b).1.2
    = match getTodoById (generateId e) this with
      | Some older => Some older
      | None => Some todo
      end
  ∧ ∀ id, id ≠ generateId e →
          getTodoById id (addTodo e text this b).1.2 = getTodoById id this.
Proof.
  destruct (addTodo_cases e text this b) as [[_ ->]|[_ ->]]; cbn [fst snd]; [|done].
  intros [= <-].
  assert (Hid : ∀ id, idIs id (mkTodo (generateId e) (trim text) false (newDate e))
                      = bool_decide (generateId e = id)) by done.
  unfold getTodoById. cbn [todos].
  assert (Hfind : ∀ id,
            List.find (fun todo => idIs id todo)
              (todos this ++ [mkTodo (generateId e) (trim text) false (newDate e)])
            = match List.find (fun todo => idIs id todo) (todos this) with
              | Some x => Some x
              | None => if bool_decide (generateId e = id)
                        then Some (mkTodo (generateId e) (trim text) false (newDate e))
                        else None
              end).
  { intros id. rewrite find_app_bool. cbn [List.find]. by rewrite Hid. }
  rewrite !Hfind.
  split_and!.
  - rewrite Hid. by apply bool_decide_eq_true.
  - by rewrite bool_decide_eq_true_2.
  - intros id Hne. rewrite Hfind, bool_decide_eq_false_2 by done.
    by destruct (List.find _ (todos this)).
Qed.

Lemma getTodoById_after_addTodo_witness :
  (addTodo entropyA (lit "Call home") sampleStore sampleBrowser).1.1
    = Some (mkTodo (generateId entropyA) (lit "Call home") false 1700000000000)
  ∧ idIs (generateId entropyA)
      (mkTodo (generateId entropyA) (lit "Call home") false 1700000000000) = true.
Proof.
  assert (H : (addTodo entropyA (lit "Call home") sampleStore sampleBrowser).1.1
              = Some (mkTodo (generateId entropyA) (lit "Call home") false 1700000000000))
    by reflexivity.
  split; [exact H|].
  exact (proj1 (getTodoById_after_addTodo _ _ sampleStore sampleBrowser _ H)).
Defined.

(** X10: an accepted [addTodo] raises the total and the active count by
    one and leaves the completed count; a rejected one leaves all three. *)
Theorem addTodo_counts (e : Entropy) (text : jsstring) (this : TodoManager.t) (b : Browser) :
  match (addTodo e text this b).1.1 with
  | Some _ =>
      total (getStats (addTodo e text this b).1.2) = S (total (getStats this))
      ∧ active (getStats (addTodo e text this b).1.2) = S (active (getStats this))
      ∧ completed (getStats (addTodo e text this b).1.2) = completed (getStats this)
  | None => getStats (addTodo e text this b).1.2 = getStats this
  end.
Proof.
  destruct (addTodo_cases e text this b) as [[_ ->]|[_ ->]]; simpl; [|done].
  unfold getStats; simpl. rewrite !List.filter_app, !length_app. simpl.
  split_and!; lia.
Qed.

(** X11: [toggleTodo] on an id that a task has keeps the total and moves
    one task between the active and the completed count, in the direction
    given by the flag of the first task with that id. *)
Theorem toggleTodo_counts (id : jsstring) (this : TodoManager.t) (b : Browser) (todo : Todo) :
  getTodoById id this = Some todo →
  total (getStats (toggleTodo id this b).1.2) = total (getStats this)
  ∧ (if isCompleted todo
     then S (completed (getStats (toggleTodo id this b).1.2)) = completed (getStats this)
          ∧ active (getStats (toggleTodo id this b).1.2) = S (active (getStats this))
     else completed (getStats (toggleTodo id this b).1.2) = S (completed (getStats this))
          ∧ S (active (getStats (toggleTodo id this b).1.2)) = active (getStats this)).
Proof.
  unfold getTodoById. rewrite find_list_find.
  destruct (list_find _ (todos this)) as [[i x]|] eqn:Hfind; [|done].
  intros [= ->]. rewrite (toggleTodo_found id this b i todo Hfind). cbn [fst snd].
  apply list_find_Some in Hfind as (Hi & _ & _).
  destruct (getStats_counts this) as (Ht & Ha & Hc).
  destruct (getStats_counts
              {| todos := <[i := setProp (lit "completed")
                                   (VJson (JBool (negb (isCompleted todo)))) todo]>
                            (todos this);
                 currentFilter := currentFilter this |}) as (Ht' & Ha' & Hc').
  rewrite Ht, Ha, Hc, Ht', Ha', Hc'. simpl. clear Ht Ha Hc Ht' Ha' Hc'.
  rewrite length_insert. split; [done|].
  assert (H1 : ∀ f : Todo → bool,
            (countIf f (<[i := setProp (lit "completed")
                                 (VJson (JBool (negb (isCompleted todo)))) todo]>
                          (todos this))
             + (if f todo then 1 else 0)
             = countIf f (todos this)
               + (if f (setProp (lit "completed")
                          (VJson (JBool (negb (isCompleted todo)))) todo)
                  then 1 else 0))%nat).
  { intros f. exact (countIf_insert f (todos this) i todo _ Hi). }
  pose proof (H1 isCompleted) as Hc.
  pose proof (H1 (fun t => negb (isCompleted t))) as Ha.
  cbv beta in Ha. rewrite isCompleted_toggled in Hc, Ha.
  destruct (isCompleted todo); cbn [negb] in *; split; lia.
Qed.

Lemma toggleTodo_counts_witness :
  getTodoById (lit "1700000000001-k2j8x0q1z") sampleStore
    = Some (mkTodo (lit "1700000000001-k2j8x0q1z") (lit "Pay bills") true 1700000000001)
  ∧ total (getStats (toggleTodo (lit "1700000000001-k2j8x0q1z")
                       sampleStore sampleBrowser).1.2)
    = total (getStats sampleStore).
Proof.
  assert (H : getTodoById (lit "1700000000001-k2j8x0q1z") sampleStore
              = Some (mkTodo (lit "1700000000001-k2j8x0q1z") (lit "Pay bills")
                        true 1700000000001)) by reflexivity.
  split; [exact H|].
  exact (proj1 (toggleTodo_counts _ sampleStore sampleBrowser _ H)).
Defined.

(** ** White space around the input *)

Lemma trimStart_ws_app (l x : jsstring) :
  Forall (fun c => isWhiteSpace c = true) l → trimStart (l ++ x) = trimStart x.
Proof. induction 1 as [|c l Hc _ IH]; simpl; [done|]. by rewrite Hc. Qed.

Lemma trimStart_all_ws (l : jsstring) :
  Forall (fun c => isWhiteSpace c = true) l → trimStart l = [].
Proof. intros H. rewrite <- (app_nil_r l). by rewrite trimStart_ws_app. Qed.

Lemma trimEnd_app_ws (x r : jsstring) :
  Forall (fun c => isWhiteSpace c = true) r → trimEnd (x ++ r) = trimEnd x.
Proof.
  intros Hr. unfold trimEnd. rewrite rev_app_distr, trimStart_ws_app; [done|].
  apply Forall_forall. intros c Hc%list_elem_of_In%in_rev%list_elem_of_In.
  by eapply Forall_forall in Hr.
Qed.

Lemma trim_ws_around (l s r : jsstring) :
  Forall (fun c => isWhiteSpace c = true) l →
  Forall (fun c => isWhiteSpace c = true) r →
  trim (l ++ s ++ r) = trim s.
Proof.
  intros Hl Hr. unfold trim. rewrite trimStart_ws_app by done.
  destruct (trimStart_spec s) as (l0 & Hs & Hl0 & _).
  destruct (trimStart s) as [|c t] eqn:E.
  - rewrite app_nil_r in Hs. subst s.
    rewrite trimStart_ws_app, trimStart_all_ws by done. done.
  - assert (Hc : isWhiteSpace c = false).
    { destruct (trimStart_spec s) as (_ & _ & _ & Hh). by apply (Hh c t). }
    rewrite Hs at 1. rewrite <- app_assoc, trimStart_ws_app by done.
    assert (trimStart ((c :: t) ++ r) = (c :: t) ++ r) as ->.
    { simpl. by rewrite Hc. }
    by rewrite trimEnd_app_ws.
Qed.

Lemma trim_idempotent (s : jsstring) : trim (trim s) = trim s.
Proof.
  destruct (trim_spec s) as (l & r & Hs & Hl & Hr & _).
  rewrite Hs at 2. by rewrite trim_ws_around.
Qed.

(** X12: white space before and after the text never matters to
    [addTodo]: the input padded with white space gives the same result, the
    same store and the same storage as the input itself, and so does the
    input already trimmed. *)
Theorem addTodo_ignores_surrounding_white_space
  (e : Entropy) (l text r : jsstring) (this : TodoManager.t) (b : Browser) :
  Forall (fun c => isWhiteSpace c = true) l →
  Forall (fun c => isWhiteSpace c = true) r →
  addTodo e (l ++ text ++ r) this b = addTodo e text this b
  ∧ addTodo e (trim text) this b = addTodo e text this b.
Proof.
  intros Hl Hr. unfold addTodo. by rewrite trim_ws_around, trim_idempotent.
Qed.

Lemma addTodo_ignores_surrounding_white_space_witness :
  Forall (fun c => isWhiteSpace c = true) (lit "  ")
  ∧ addTodo entropyA (lit "  " ++ lit "Buy milk" ++ [9; 10; 160]) sampleStore sampleBrowser
    = addTodo entropyA (lit "Buy milk") sampleStore sampleBrowser.
Proof.
  assert (H1 : Forall (fun c => isWhiteSpace c = true) (lit "  "))
    by (repeat constructor).
  assert (H2 : Forall (fun c => isWhiteSpace c = true) [9; 10; 160])
    by (repeat constructor).
  split; [exact H1|].
  exact (proj1 (addTodo_ignores_surrounding_white_space
                  entropyA _ (lit "Buy milk") _ sampleStore sampleBrowser H1 H2)).
Defined.

(** X13: every operation keeps the texts of the store well formed: if
    each task has a text of 1 to 200 code units without white space at
    either end, this is still so after any sequence of operations. *)
Theorem session_keeps_texts_valid
  (ops : list op) (this : TodoManager.t) (b : Browser) :
  Forall textOk (todos this) →
  Forall textOk (todos (run ops (this, b)).1).
Proof.
  revert this b. induction ops as [|o ops IH]; intros this b Ht; [done|].
  simpl. destruct (step o (this, b)) as [this' b'] eqn:E. apply IH.
  destruct o as [e text|id|id| | |f]; simpl in E.
  - destruct (addTodo_cases e text this b) as [[Hlen Ha]|[_ Ha]];
      rewrite Ha in E; injection E as <- _; simpl; [|done].
    apply Forall_app. split; [done|]. constructor; [|done].
    exists (trim text). split_and!; [done|lia|lia|apply trim_idempotent].
  - unfold toggleTodo in E.
    destruct (list_find _ (todos this)) as [[i todo]|] eqn:Hfind;
      injection E as <- _; simpl; [|done].
    apply list_find_Some in Hfind as (Hi & _ & _).
    apply Forall_insert; [done|].
    pose proof (Forall_lookup_1 _ _ _ _ Ht Hi) as (s & Hs & Hlen & Htrim).
    exists s. by rewrite getProp_setProp_ne.
  - unfold deleteTodo in E; simpl in E.
    destruct (_ <? _)%nat; injection E as <- _; simpl; by apply Forall_filter_bool.
  - unfold clearCompleted in E; simpl in E.
    destruct (_ <? _)%nat; injection E as <- _; simpl; by apply Forall_filter_bool.
  - injection E as <- _. constructor.
  - by injection E as <- _.
Qed.

Lemma session_keeps_texts_valid_witness :
  Forall textOk (todos sampleStore)
  ∧ Forall textOk (todos (run scenarioOps (sampleStore, sampleBrowser)).1).
Proof.
  assert (H : Forall textOk (todos sampleStore)).
  { repeat constructor; eexists; (split_and!; [reflexivity|simpl; lia..|reflexivity]). }
  split; [exact H|].
  exact (session_keeps_texts_valid scenarioOps sampleStore sampleBrowser H).
Defined.

(** ** The shape of an id *)

(** X14: for a clock reading that is not negative, the id is the decimal
    digits of the reading, at least one, then a hyphen, then at most nine
    characters taken from the random number: its third to eleventh. *)
Theorem generateId_is_timestamp_hyphen_suffix (e : Entropy) :
  0 ≤ dateNow e →
  ∃ digits suffix : jsstring,
    generateId e = digits ++ 45 :: suffix
    ∧ digits = NumberToString (dateNow e)
    ∧ digits ≠ []
    ∧ Forall (fun c => isDigit c = true) digits
    ∧ suffix = take 9 (drop 2 (random36 e))
    ∧ (length suffix ≤ 9)%nat
    ∧ (length suffix = 9 ↔ 11 ≤ length (random36 e))%nat.
Proof.
  intros Hnow. exists (NumberToString (dateNow e)), (substr 2 9 (random36 e)).
  assert (Hpos : ∃ u, Z.to_int (dateNow e) = Pos u ∧ u ≠ Nil).
  { destruct (dateNow e) as [|p|p]; simpl; [by eexists| |lia].
    eexists. split; [done|]. apply DecimalPos.Unsigned.to_uint_nonnil. }
  destruct Hpos as (u & Hu & Hnil).
  unfold NumberToString, substr. rewrite Hu. simpl int_units.
  split_and!; try done.
  - unfold generateId, NumberToString, substr. by rewrite Hu.
  - destruct u; simpl; done.
  - apply uint_units_digits.
  - rewrite length_take. lia.
  - rewrite length_take, length_drop. lia.
Qed.

Lemma generateId_is_timestamp_hyphen_suffix_witness :
  0 ≤ dateNow entropyA
  ∧ ∃ digits suffix : jsstring,
      generateId entropyA = digits ++ 45 :: suffix ∧ (length suffix ≤ 9)%nat.
Proof.
  assert (H : 0 ≤ dateNow entropyA) by (simpl; lia).
  split; [exact H|].
  destruct (generateId_is_timestamp_hyphen_suffix entropyA H)
    as (d & s & H1 & _ & _ & _ & _ & H2 & _).
  by exists d, s.
Defined.

(** ** Reading records *)

Lemma restore_has_date (h : Host) (x : json) (todo : Todo) :
  restore h x = Normal todo →
  ∃ d, getProp (lit "createdAt") todo = Some (VDate d).
Proof.
  unfold restore. destruct (member _ x) as [v|]; [|done].
  destruct (newDateOf h v) as [d|]; [|done].
  intros [= <-]. exists d. apply getProp_setProp_eq.
Qed.

Lemma restoreAll_Forall (h : Host) (P : Todo → Prop) (xs : list json) (l : list Todo) :
  (∀ x todo, restore h x = Normal todo → P todo) →
  restoreAll h xs = Normal l → Forall P l.
Proof.
  intros HP. revert l. induction xs as [|x xs IH]; simpl; intros l Hl.
  - injection Hl as <-. constructor.
  - destruct (restore h x) as [todo|] eqn:E; [|done].
    destruct (restoreAll h xs) as [l'|]; [|done].
    injection Hl as <-. constructor; eauto.
Qed.

Lemma restoreAll_null (h : Host) (xs : list json) :
  JNull ∈ xs → ∃ e, restoreAll h xs = Throw e.
Proof.
  induction xs as [|x xs IH]; intros Hin.
  - by apply elem_of_nil in Hin.
  - apply elem_of_cons in Hin as [<-|Hin]; simpl; [eauto|].
    destruct (restore h x); [|eauto]. destruct (IH Hin) as (e & ->). eauto.
Qed.

(** X15: one [null] element anywhere in the stored array discards the
    whole record: the store starts empty, whatever the other elements
    are, and the failure is reported on the console only. *)
Theorem null_element_discards_the_record (h : Host) (b : Browser) (xs : list json) :
  getItemThrows b = false →
  todosItem b = Some (Encodes (JArr xs)) →
  JNull ∈ xs →
  todos (constructor h b).1 = []
  ∧ consoleErrors (constructor h b).2 = S (consoleErrors b)
  ∧ todosItem (constructor h b).2 = todosItem b.
Proof.
  intros Hg Hi Hnull. destruct (restoreAll_null h xs Hnull) as (e & He).
  unfold constructor, loadFromLocalStorage, tryLoad, getItem.
  rewrite Hg, Hi. simpl. by rewrite He.
Qed.

Lemma null_element_discards_the_record_witness :
  JNull ∈ [JObj [(lit "id", JStr (lit "a")); (lit "text", JStr (lit "x"))]; JNull]
  ∧ todos (constructor plainHost nullElementBrowser).1 = [].
Proof.
  assert (H : JNull ∈ [JObj [(lit "id", JStr (lit "a")); (lit "text", JStr (lit "x"))];
                       JNull])
    by (apply list_elem_of_further, list_elem_of_here).
  split; [exact H|].
  exact (proj1 (null_element_discards_the_record plainHost nullElementBrowser _
                  eq_refl eq_refl H)).
Defined.

(** X16: whatever the storage holds, every task of a newly constructed
    store has a [createdAt] that is a Date object, valid or not, never
    a string or another kind of value. *)
Theorem constructed_tasks_have_a_date (h : Host) (b : Browser) :
  Forall (fun todo => ∃ d, getProp (lit "createdAt") todo = Some (VDate d))
    (todos (constructor h b).1).
Proof.
  unfold constructor, loadFromLocalStorage.
  destruct (tryLoad h b) as [[l|]|e] eqn:E; simpl; [|constructor..].
  unfold tryLoad in E. destruct (getItem b) as [[[| |j]|]|]; try done.
  destruct (parsedMap h j) as [l'|] eqn:Ep; [|done]. injection E as ->.
  destruct j; try done. simpl in Ep.
  eapply restoreAll_Forall; [|exact Ep]. apply restore_has_date.
Qed.

(** X17: an object of the stored array is loaded with all its properties,
    declared by the task type or not: every property other than
    [createdAt] has the stored value, and [createdAt] is a Date. *)
Theorem restore_keeps_the_other_properties
  (h : Host) (ps : list (jsstring * json)) (todo : Todo) :
  restore h (JObj ps) = Normal todo →
  (∀ k, k ≠ lit "createdAt" → getProp k todo = VJson <$> getProp k ps)
  ∧ (∃ d, getProp (lit "createdAt") todo = Some (VDate d))
  ∧ (length ps ≤ length todo ≤ S (length ps))%nat.
Proof.
  intros Hr. pose proof (restore_has_date h _ _ Hr) as Hd.
  rewrite restore_object in Hr.
  destruct (newDateOf h (getProp (lit "createdAt") ps)) as [d|]; [|done].
  injection Hr as <-. split; [|split; [done|]].
  - intros k Hk. by rewrite getProp_setProp_ne, getProp_map.
  - assert (Hlen : ∀ (o : object) k v,
              (length o ≤ length (setProp k v o) ≤ S (length o))%nat).
    { intros o k v. induction o as [|[k' v'] o IH]; simpl; [lia|].
      destruct (bool_decide (k' = k)); simpl; lia. }
    specialize (Hlen (map (fun p => (fst p, VJson (snd p))) ps)
                  (lit "createdAt") (VDate d)).
    rewrite length_map in Hlen. exact Hlen.
Qed.

Lemma restore_keeps_the_other_properties_witness :
  restore plainHost (JObj [(lit "title", JStr (lit "Buy milk"))])
    = Normal [ (lit "title", VJson (JStr (lit "Buy milk")));
               (lit "createdAt", VDate None) ]
  ∧ ∀ k, k ≠ lit "createdAt" →
         getProp k [ (lit "title", VJson (JStr (lit "Buy milk")));
                     (lit "createdAt", VDate None) ]
         = VJson <$> getProp k [(lit "title", JStr (lit "Buy milk"))].
Proof.
  assert (H : restore plainHost (JObj [(lit "title", JStr (lit "Buy milk"))])
              = Normal [ (lit "title", VJson (JStr (lit "Buy milk")));
                         (lit "createdAt", VDate None) ]) by reflexivity.
  split; [exact H|].
  exact (proj1 (restore_keeps_the_other_properties plainHost _ _ H)).
Defined.

(** X18: an object whose stored [createdAt] is the ISO string of a time
    value is loaded with a Date of that time value, whatever else the
    object holds and whatever the host does with other strings. *)
Theorem restore_reads_the_iso_createdAt
  (h : Host) (ps : list (jsstring * json)) (t : Z) :
  Z.abs t ≤ maxTime →
  getProp (lit "createdAt") ps = Some (JStr (toISOString t)) →
  ∃ todo, restore h (JObj ps) = Normal todo
          ∧ getProp (lit "createdAt") todo = Some (VDate (Some t))
          ∧ jsonOfValue (VDate (Some t)) = JStr (toISOString t).
Proof.
  intros Ht Hc. rewrite restore_object, Hc. simpl newDateOf.
  unfold Date_parse. rewrite parseISO_toISOString by done.
  unfold TimeClip. destruct (Z.ltb_spec maxTime (Z.abs t)); [lia|].
  eexists. split_and!; [done| |done]. apply getProp_setProp_eq.
Qed.

Lemma restore_reads_the_iso_createdAt_witness :
  Z.abs 1700000000123 ≤ maxTime
  ∧ ∃ todo, restore plainHost
              (JObj [(lit "createdAt", JStr (toISOString 1700000000123));
                     (lit "text", JStr (lit "x"))]) = Normal todo
            ∧ getProp (lit "createdAt") todo = Some (VDate (Some 1700000000123)).
Proof.
  assert (H : Z.abs 1700000000123 ≤ maxTime) by (unfold maxTime; simpl; lia).
  split; [exact H|].
  destruct (restore_reads_the_iso_createdAt plainHost
              [(lit "createdAt", JStr (toISOString 1700000000123));
               (lit "text", JStr (lit "x"))] 1700000000123 H eq_refl)
    as (todo & H1 & H2 & _).
  by exists todo.
Defined.

(** X19: an object stored without [createdAt] is loaded with an Invalid
    Date; and a task whose [createdAt] is an Invalid Date is written with
    [createdAt] null, which the next load reads as the epoch: an invalid
    date does not survive a save and a reload. *)
Theorem invalid_createdAt_becomes_the_epoch
  (h : Host) (ps : list (jsstring * json)) :
  getProp (lit "createdAt") ps = None →
  ∃ todo todo' : Todo,
    restore h (JObj ps) = Normal todo
    ∧ getProp (lit "createdAt") todo = Some (VDate None)
    ∧ member (lit "createdAt") (jsonOfObject todo) = Normal (Some JNull)
    ∧ restore h (jsonOfObject todo) = Normal todo'
    ∧ getProp (lit "createdAt") todo' = Some (VDate (Some 0)).
Proof.
  intros Hc.
  set (todo := setProp (lit "createdAt") (VDate None)
                 (map (fun p => (fst p, VJson (snd p))) ps)).
  assert (Hd : getProp (lit "createdAt") todo = Some (VDate None)).
  { apply getProp_setProp_eq. }
  assert (Hj : getProp (lit "createdAt")
                 (map (fun p => (fst p, jsonOfValue (snd p))) todo) = Some JNull).
  { by rewrite getProp_map, Hd. }
  eexists todo, _. split_and!.
  - by rewrite restore_object, Hc.
  - done.
  - unfold jsonOfObject, member. by rewrite Hj.
  - unfold jsonOfObject. rewrite restore_object, Hj. reflexivity.
  - apply getProp_setProp_eq.
Qed.

Lemma invalid_createdAt_becomes_the_epoch_witness :
  getProp (lit "createdAt") [(lit "id", JStr (lit "a")); (lit "text", JStr (lit "x"))]
    = None
  ∧ ∃ todo todo' : Todo,
      restore plainHost (JObj [(lit "id", JStr (lit "a")); (lit "text", JStr (lit "x"))])
        = Normal todo
      ∧ restore plainHost (jsonOfObject todo) = Normal todo'
      ∧ getProp (lit "createdAt") todo' = Some (VDate (Some 0)).
Proof.
  assert (H : getProp (lit "createdAt")
                [(lit "id", JStr (lit "a")); (lit "text", JStr (lit "x"))] = None)
    by reflexivity.
  split; [exact H|].
  destruct (invalid_createdAt_becomes_the_epoch plainHost _ H)
    as (todo & todo' & H1 & _ & _ & H2 & H3).
  by exists todo, todo'.
Defined.

(** * Properties of the presentation layer *)

Lemma appendElements_spec (d : UIManager.Dom) (l : list Todo) :
  (UIManager.appendElements d l).2 `prefix_of` l
  ∧ Forall (fun todo => UIManager.builds d todo = true) (UIManager.appendElements d l).2
  ∧ ((UIManager.appendElements d l).1 = Normal tt
     ↔ Forall (fun todo => UIManager.builds d todo = true) l)
  ∧ ((UIManager.appendElements d l).1 = Normal tt →
       (UIManager.appendElements d l).2 = l).
Proof.
  induction l as [|todo l (Hp & Hb & Hn & He)]; simpl.
  - split_and!; [done|constructor|done|done].
  - destruct (UIManager.builds d todo) eqn:E; simpl.
    + split_and!.
      * by apply prefix_cons.
      * by constructor.
      * rewrite Hn. split; [by constructor|by inversion 1].
      * intros H. by rewrite He.
    + split_and!; [apply prefix_nil|constructor| |done].
      split; [done|]. inversion 1; congruence.
Qed.

Lemma render_twice (d : UIManager.Dom) (w : UIManager.World) :
  UIManager.render d (UIManager.render d w).2 = UIManager.render d w.
Proof.
  unfold UIManager.render; simpl.
  assert (Hc : ∀ c n, UIManager.updateCounter (UIManager.updateCounter c n) n
                      = UIManager.updateCounter c n) by (by intros [c|] n).
  by rewrite !Hc.
Qed.

Lemma appendElements_first_failure (d : UIManager.Dom) (l : list Todo) :
  ∃ rest, l = (UIManager.appendElements d l).2 ++ rest
          ∧ match rest with
            | [] => (UIManager.appendElements d l).1 = Normal tt
            | todo :: _ =>
                UIManager.builds d todo = false
                ∧ (UIManager.appendElements d l).1 = Throw TypeError
            end.
Proof.
  induction l as [|todo l (rest & Hl & Hrest)]; simpl.
  - by exists [].
  - destruct (UIManager.builds d todo) eqn:E; simpl.
    + exists rest. split; [by rewrite <- Hl|done].
    + by exists (todo :: l).
Qed.

(** X21: [render] completes exactly when the element of every task of
    the selected view can be built, and the list then holds exactly these
    tasks, in order; otherwise it throws a TypeError and the list holds
    exactly the tasks of the view before the first one whose element
    cannot be built. In both cases either the list or the empty-state
    element is hidden, never both nor neither, the empty state showing
    exactly when the selected view is empty, which can be while the store
    has tasks; each counter that exists shows the count of the whole
    store, whatever the view, and a counter the document lacks stays
    absent; the store, the storage, the input, the error element with its
    text and the filter buttons are untouched, and rendering again
    changes nothing. *)
Theorem render_shows_the_selected_view (d : UIManager.Dom) (w : UIManager.World) :
  ((UIManager.render d w).1 = Normal tt
   ↔ Forall (fun todo => UIManager.builds d todo = true)
       (getTodos None (UIManager.manager w)))
  ∧ ((UIManager.render d w).1 = Normal tt →
       UIManager.listItems (UIManager.page (UIManager.render d w).2)
       = getTodos None (UIManager.manager w))
  ∧ UIManager.listItems (UIManager.page (UIManager.render d w).2)
      `prefix_of` getTodos None (UIManager.manager w)
  ∧ UIManager.emptyHidden (UIManager.page (UIManager.render d w).2)
    = negb (UIManager.listHidden (UIManager.page (UIManager.render d w).2))
  ∧ (UIManager.emptyHidden (UIManager.page (UIManager.render d w).2) = false
     ↔ getTodos None (UIManager.manager w) = [])
  ∧ (∀ s, UIManager.countAll (UIManager.page (UIManager.render d w).2) = Some s →
          s = NumberToString (Z.of_nat (length (todos (UIManager.manager w)))))
  ∧ (∀ s, UIManager.totalTasks (UIManager.page (UIManager.render d w).2) = Some s →
          s = NumberToString (Z.of_nat (length (todos (UIManager.manager w)))))
  ∧ (∀ s, UIManager.countActive (UIManager.page (UIManager.render d w).2) = Some s →
          s = NumberToString
                (Z.of_nat (length (getTodos (Some FilterType.active) (UIManager.manager w)))))
  ∧ (∀ s, UIManager.countCompleted (UIManager.page (UIManager.render d w).2) = Some s →
          s = NumberToString
                (Z.of_nat (length (getTodos (Some FilterType.completed)
                                     (UIManager.manager w)))))
  ∧ UIManager.manager (UIManager.render d w).2 = UIManager.manager w
  ∧ UIManager.browser (UIManager.render d w).2 = UIManager.browser w
  ∧ UIManager.inputValue (UIManager.page (UIManager.render d w).2)
    = UIManager.inputValue (UIManager.page w)
  ∧ UIManager.errorHidden (UIManager.page (UIManager.render d w).2)
    = UIManager.errorHidden (UIManager.page w)
  ∧ UIManager.render d (UIManager.render d w).2 = UIManager.render d w
  ∧ (∃ rest,
       getTodos None (UIManager.manager w)
       = UIManager.listItems (UIManager.page (UIManager.render d w).2) ++ rest
       ∧ Forall (fun todo => UIManager.builds d todo = true)
           (UIManager.listItems (UIManager.page (UIManager.render d w).2))
       ∧ match rest with
         | [] => (UIManager.render d w).1 = Normal tt
         | todo :: _ =>
             UIManager.builds d todo = false
             ∧ (UIManager.render d w).1 = Throw TypeError
         end)
  ∧ UIManager.countAll (UIManager.page (UIManager.render d w).2)
    = (fun _ => NumberToString (Z.of_nat (length (todos (UIManager.manager w)))))
        <$> UIManager.countAll (UIManager.page w)
  ∧ UIManager.totalTasks (UIManager.page (UIManager.render d w).2)
    = (fun _ => NumberToString (Z.of_nat (length (todos (UIManager.manager w)))))
        <$> UIManager.totalTasks (UIManager.page w)
  ∧ UIManager.countActive (UIManager.page (UIManager.render d w).2)
    = (fun _ => NumberToString
                  (Z.of_nat (length (getTodos (Some FilterType.active)
                                       (UIManager.manager w)))))
        <$> UIManager.countActive (UIManager.page w)
  ∧ UIManager.countCompleted (UIManager.page (UIManager.render d w).2)
    = (fun _ => NumberToString
                  (Z.of_nat (length (getTodos (Some FilterType.completed)
                                       (UIManager.manager w)))))
        <$> UIManager.countCompleted (UIManager.page w)
  ∧ UIManager.errorText (UIManager.page (UIManager.render d w).2)
    = UIManager.errorText (UIManager.page w)
  ∧ UIManager.filterButtons (UIManager.page (UIManager.render d w).2)
    = UIManager.filterButtons (UIManager.page w)
  ∧ (UIManager.listHidden (UIManager.page (UIManager.render d w).2) = true
     ↔ getTodos None (UIManager.manager w) = []).
Proof.
  assert (Hc : ∀ c n s, UIManager.updateCounter c n = Some s
                        → s = NumberToString (Z.of_nat n)).
  { intros [c|] n s; simpl; [by intros [= <-]|done]. }
  assert (Hu : ∀ c n, UIManager.updateCounter c n
                      = (fun _ => NumberToString (Z.of_nat n)) <$> c).
  { by intros [c|] n. }
  destruct (appendElements_spec d (getTodos None (UIManager.manager w)))
    as (Hp & Hb & Hn & He).
  destruct (appendElements_first_failure d (getTodos None (UIManager.manager w)))
    as (rest & Hl & Hrest).
  split_and!; try done; try (intros s Hs; by apply Hc in Hs); try apply Hu.
  - simpl. destruct (getTodos None (UIManager.manager w)); simpl; split; done.
  - apply render_twice.
  - by exists rest.
  - simpl. destruct (getTodos None (UIManager.manager w)); simpl; split; done.
Qed.

(** X22: [handleAddTodo] never fails silently. When the store rejects the
    input the error element is shown with the message for an empty input
    or the one for a too long input, according to the trimmed input, and
    the input field, the list, the store and the storage stay as they
    were; when the store accepts it the input field is emptied, the error
    element hidden and the page rendered from the new store, the list
    showing the selected view whenever its elements can be built. *)
Theorem handleAddTodo_shows_an_error_or_clears_the_input
  (d : UIManager.Dom) (e : Entropy) (w : UIManager.World) :
  match (addTodo e (UIManager.inputValue (UIManager.page w))
           (UIManager.manager w) (UIManager.browser w)).1.1 with
  | None =>
      (UIManager.handleAddTodo d e w).1 = Normal tt
      ∧ UIManager.errorHidden (UIManager.page (UIManager.handleAddTodo d e w).2) = false
      ∧ UIManager.errorText (UIManager.page (UIManager.handleAddTodo d e w).2)
        = (if (length (trim (UIManager.inputValue (UIManager.page w))) =? 0)%nat
           then lit "Taak mag niet leeg zijn"
           else lit "Taak mag niet langer zijn dan 200 karakters")
      ∧ (UIManager.handleAddTodo d e w).2
        = UIManager.withPage
            (UIManager.showError
               (UIManager.errorText (UIManager.page (UIManager.handleAddTodo d e w).2))
               (UIManager.page w)) w
  | Some todo =>
      UIManager.inputValue (UIManager.page (UIManager.handleAddTodo d e w).2) = []
      ∧ UIManager.errorHidden (UIManager.page (UIManager.handleAddTodo d e w).2) = true
      ∧ todos (UIManager.manager (UIManager.handleAddTodo d e w).2)
        = todos (UIManager.manager w) ++ [todo]
      ∧ UIManager.browser (UIManager.handleAddTodo d e w).2
        = (addTodo e (UIManager.inputValue (UIManager.page w))
             (UIManager.manager w) (UIManager.browser w)).2
      ∧ (Forall (fun todo => UIManager.builds d todo = true)
           (getTodos None (UIManager.manager (UIManager.handleAddTodo d e w).2)) →
           (UIManager.handleAddTodo d e w).1 = Normal tt
           ∧ UIManager.listItems (UIManager.page (UIManager.handleAddTodo d e w).2)
             = getTodos None (UIManager.manager (UIManager.handleAddTodo d e w).2))
  end.
Proof.
  unfold UIManager.handleAddTodo.
  destruct (addTodo_cases e (UIManager.inputValue (UIManager.page w))
              (UIManager.manager w) (UIManager.browser w)) as [[Hlen ->]|[Hlen ->]];
    cbn [fst snd].
  - split_and!; try done. intros Hb.
    match goal with
    | |- context [UIManager.render d ?w0] =>
        destruct (appendElements_spec d (getTodos None (UIManager.manager w0)))
          as (_ & _ & Hn & He)
    end.
    simpl in *. apply Hn in Hb. split; [done|by apply He].
  - destruct (Nat.eqb_spec (length (trim (UIManager.inputValue (UIManager.page w)))) 0)
      as [H0|H0].
    + split_and!; try done; try (by destruct w).
    + destruct (Nat.ltb_spec 200
                  (length (trim (UIManager.inputValue (UIManager.page w)))))
        as [H1|H1]; [|lia].
      split_and!; try done; try (by destruct w).
Qed.

(** X23: after [handleFilterChange] the store selects the given filter,
    a filter button is active exactly when its [data-filter] attribute is
    the name of that filter, the tasks and the storage are as before, and
    the list shows the view of that filter, completely whenever its
    elements can be built. *)
Theorem handleFilterChange_selects_and_shows
  (d : UIManager.Dom) (filter : FilterType.t) (w : UIManager.World) :
  getCurrentFilter (UIManager.manager (UIManager.handleFilterChange d filter w).2) = filter
  ∧ todos (UIManager.manager (UIManager.handleFilterChange d filter w).2)
    = todos (UIManager.manager w)
  ∧ UIManager.browser (UIManager.handleFilterChange d filter w).2 = UIManager.browser w
  ∧ UIManager.listItems (UIManager.page (UIManager.handleFilterChange d filter w).2)
      `prefix_of` getTodos (Some filter) (UIManager.manager w)
  ∧ (Forall (fun todo => UIManager.builds d todo = true)
       (getTodos (Some filter) (UIManager.manager w)) →
       (UIManager.handleFilterChange d filter w).1 = Normal tt
       ∧ UIManager.listItems (UIManager.page (UIManager.handleFilterChange d filter w).2)
         = getTodos (Some filter) (UIManager.manager w))
  ∧ length (UIManager.filterButtons
              (UIManager.page (UIManager.handleFilterChange d filter w).2))
    = length (UIManager.filterButtons (UIManager.page w))
  ∧ (∀ i btn,
       UIManager.filterButtons
         (UIManager.page (UIManager.handleFilterChange d filter w).2) !! i = Some btn →
       ∃ old, UIManager.filterButtons (UIManager.page w) !! i = Some old
              ∧ UIManager.dataFilter btn = UIManager.dataFilter old
              ∧ (UIManager.isActive btn = true
                 ↔ UIManager.dataFilter old = Some (UIManager.filterName filter)))
  ∧ (∀ f g, UIManager.filterName f = UIManager.filterName g → f = g).
Proof.
  destruct (appendElements_spec d (getTodos (Some filter) (UIManager.manager w)))
    as (Hp & _ & Hn & He).
  unfold UIManager.handleFilterChange; simpl. split_and!; try done.
  - intros Hb. apply Hn in Hb. split; [done|by apply He].
  - by rewrite length_map.
  - intros i btn Hi.
    change (map (UIManager.markButton filter) (UIManager.filterButtons (UIManager.page w)))
      with (UIManager.markButton filter <$> UIManager.filterButtons (UIManager.page w))
      in Hi.
    rewrite list_lookup_fmap in Hi.
    destruct (UIManager.filterButtons (UIManager.page w) !! i) as [old|]; [|done].
    injection Hi as <-. exists old. split_and!; [done..|].
    unfold UIManager.markButton; simpl.
    destruct (UIManager.dataFilter old) as [s|]; [|done].
    rewrite bool_decide_eq_true. split; [by intros ->|by intros [= ->]].
  - by intros [] []; try done.
Qed.

(** X24: [handleClearCompleted] re-renders only when something was
    cleared: with no completed task the page, the store and the storage
    are exactly as before; otherwise the store has lost its completed
    tasks, the page is rendered from it, and the list shows no completed
    task. *)
Theorem handleClearCompleted_renders_only_after_a_removal
  (d : UIManager.Dom) (w : UIManager.World) :
  (Forall (fun todo => isCompleted todo = false) (todos (UIManager.manager w)) →
     UIManager.handleClearCompleted d w = (Normal tt, w))
  ∧ ((∃ todo, todo ∈ todos (UIManager.manager w) ∧ isCompleted todo = true) →
       UIManager.handleClearCompleted d w
       = UIManager.render d
           {| UIManager.page := UIManager.page w;
              UIManager.manager := (clearCompleted (UIManager.manager w)
                                      (UIManager.browser w)).1.2;
              UIManager.browser := (clearCompleted (UIManager.manager w)
                                      (UIManager.browser w)).2 |})
  ∧ Forall (fun todo => isCompleted todo = false)
      (todos (UIManager.manager (UIManager.handleClearCompleted d w).2))
  ∧ ((∃ todo, todo ∈ todos (UIManager.manager w) ∧ isCompleted todo = true) →
       Forall (fun todo => isCompleted todo = false)
         (UIManager.listItems (UIManager.page (UIManager.handleClearCompleted d w).2))).
Proof.
  assert (Hcount : (clearCompleted (UIManager.manager w) (UIManager.browser w)).1.1
                   = countIf isCompleted (todos (UIManager.manager w))).
  { unfold clearCompleted; simpl.
    pose proof (filter_bool_length (fun todo => negb (isCompleted todo))
                  (todos (UIManager.manager w))).
    pose proof (countIf_split isCompleted (todos (UIManager.manager w))).
    destruct (_ <? _)%nat; simpl; lia. }
  assert (Hclean : Forall (fun todo => isCompleted todo = false)
                     (todos (clearCompleted (UIManager.manager w)
                               (UIManager.browser w)).1.2)).
  { assert (todos (clearCompleted (UIManager.manager w) (UIManager.browser w)).1.2
            = List.filter (fun todo => negb (isCompleted todo))
                (todos (UIManager.manager w))) as ->.
    { unfold clearCompleted; simpl. by destruct (_ <? _)%nat. }
    apply Forall_forall. intros x [_ Hx]%elem_of_filter_bool. by apply negb_true_iff. }
  assert (Hpos : (∃ todo, todo ∈ todos (UIManager.manager w) ∧ isCompleted todo = true) →
                 (0 <? (clearCompleted (UIManager.manager w)
                          (UIManager.browser w)).1.1)%nat = true).
  { intros (t0 & Hin & Hc). rewrite Hcount. apply Nat.ltb_lt.
    by eapply countIf_pos. }
  unfold UIManager.handleClearCompleted. split_and!.
  - intros Hnone.
    assert (Hz : countIf isCompleted (todos (UIManager.manager w)) = O).
    { clear -Hnone. induction Hnone as [|x l Hx _ IH]; simpl; [done|]. by rewrite Hx. }
    assert (Hsame : List.filter (fun todo => negb (isCompleted todo))
                      (todos (UIManager.manager w)) = todos (UIManager.manager w)).
    { apply filter_bool_all. eapply Forall_impl; [exact Hnone|]. by intros x ->. }
    unfold clearCompleted; simpl. rewrite Hsame, Nat.sub_diag. simpl.
    destruct w as [p [ts f] b]. done.
  - intros Hsome. by rewrite (Hpos Hsome).
  - by destruct (_ <? _)%nat.
  - intros Hsome. rewrite (Hpos Hsome).
    match goal with
    | |- context [UIManager.render d ?w0] =>
        destruct (appendElements_spec d (getTodos None (UIManager.manager w0)))
          as (Hp & _ & _ & _);
        assert (Hview : Forall (fun todo => isCompleted todo = false)
                          (getTodos None (UIManager.manager w0)))
    end.
    { unfold getTodos. cbn [UIManager.manager].
      destruct (currentFilter _); try done; by apply Forall_filter_bool. }
    cbn [UIManager.render snd UIManager.page UIManager.listItems].
    destruct Hp as [k Hk]. rewrite Hk in Hview. by apply Forall_app in Hview as [? _].
Qed.

(** X25: the text [escapeHtml] returns holds no [<] and no [>]; every
    ampersand in it starts one of the four entities; a text without
    ampersand, angle bracket and no-break space is returned as it is. *)
Theorem escapeHtml_leaves_no_angle_bracket (text : jsstring) :
  Forall (fun c => c ≠ 60 ∧ c ≠ 62) (UIManager.escapeHtml text)
  ∧ (length text ≤ length (UIManager.escapeHtml text))%nat
  ∧ (Forall (fun c => c ≠ 38 ∧ c ≠ 60 ∧ c ≠ 62 ∧ c ≠ 160) text →
       UIManager.escapeHtml text = text)
  ∧ (∀ before after, UIManager.escapeHtml text = before ++ 38 :: after →
       ∃ rest entity, after = entity ++ rest
                      ∧ (entity = lit "amp;" ∨ entity = lit "nbsp;"
                         ∨ entity = lit "lt;" ∨ entity = lit "gt;")).
Proof.
  assert (Hunit : ∀ c, (c = 38 ∧ UIManager.escapeUnit c = lit "&amp;")
                       ∨ (c = 160 ∧ UIManager.escapeUnit c = lit "&nbsp;")
                       ∨ (c = 60 ∧ UIManager.escapeUnit c = lit "&lt;")
                       ∨ (c = 62 ∧ UIManager.escapeUnit c = lit "&gt;")
                       ∨ (c ≠ 38 ∧ c ≠ 160 ∧ c ≠ 60 ∧ c ≠ 62
                          ∧ UIManager.escapeUnit c = [c])).
  { intros c. unfold UIManager.escapeUnit.
    destruct (Z.eqb_spec c 38); [by left|].
    destruct (Z.eqb_spec c 160); [by right; left|].
    destruct (Z.eqb_spec c 60); [by right; right; left|].
    destruct (Z.eqb_spec c 62); [by right; right; right; left|].
    by right; right; right; right. }
  unfold UIManager.escapeHtml. split_and!.
  - induction text as [|c text IH]; simpl; [constructor|].
    apply Forall_app. split; [|done].
    destruct (Hunit c) as [[_ ->]|[[_ ->]|[[_ ->]|[[_ ->]|(_ & _ & ? & ? & ->)]]]];
      repeat constructor; done.
  - induction text as [|c text IH]; simpl; [done|]. rewrite length_app.
    destruct (Hunit c) as [[_ ->]|[[_ ->]|[[_ ->]|[[_ ->]|(_ & _ & _ & _ & ->)]]]];
      simpl; lia.
  - induction 1 as [|c text (H1 & H2 & H3 & H4) _ IH]; simpl; [done|].
    destruct (Hunit c) as [[? _]|[[? _]|[[? _]|[[? _]|(_ & _ & _ & _ & ->)]]]];
      try done. simpl. by rewrite IH.
  - induction text as [|c text IH]; simpl; intros before after E.
    { by destruct before. }
    destruct (Hunit c) as [[_ Hc]|[[_ Hc]|[[_ Hc]|[[_ Hc]|(Hn & _ & _ & _ & Hc)]]]];
      rewrite Hc in E.
    + destruct before as [|c0 before]; simpl in E.
      * injection E as <-. exists (flat_map UIManager.escapeUnit text), (lit "amp;").
        split; [done|by left].
      * injection E as <- E. do 4 (destruct before as [|? before];
          [discriminate E|injection E as <- E]).
        by apply (IH before after).
    + destruct before as [|c0 before]; simpl in E.
      * injection E as <-. exists (flat_map UIManager.escapeUnit text), (lit "nbsp;").
        split; [done|by right; left].
      * injection E as <- E. do 5 (destruct before as [|? before];
          [discriminate E|injection E as <- E]).
        by apply (IH before after).
    + destruct before as [|c0 before]; simpl in E.
      * injection E as <-. exists (flat_map UIManager.escapeUnit text), (lit "lt;").
        split; [done|by right; right; left].
      * injection E as <- E. do 3 (destruct before as [|? before];
          [discriminate E|injection E as <- E]).
        by apply (IH before after).
    + destruct before as [|c0 before]; simpl in E.
      * injection E as <-. exists (flat_map UIManager.escapeUnit text), (lit "gt;").
        split; [done|by right; right; right].
      * injection E as <- E. do 3 (destruct before as [|? before];
          [discriminate E|injection E as <- E]).
        by apply (IH before after).
    + destruct before as [|c0 before]; simpl in E.
      * injection E as ->. done.
      * injection E as <- E. by apply (IH before after).
Qed.

(** X26: at start-up the page is rendered from the store as loaded: the
    store selects the full view, so the list holds the loaded tasks, in
    order, all of them whenever their elements can be built, whatever
    filter button the document marks active; the empty state shows exactly
    when nothing was loaded, as with an absent or unreadable record, and
    start-up then completes; start-up never writes to the storage. *)
Theorem main_renders_the_loaded_store
  (d : UIManager.Dom) (h : Host) (p : UIManager.Page) (b : Browser) :
  UIManager.manager (main d h p b).2 = (constructor h b).1
  ∧ UIManager.listItems (UIManager.page (main d h p b).2)
      `prefix_of` todos (constructor h b).1
  ∧ (Forall (fun todo => UIManager.builds d todo = true) (todos (constructor h b).1) →
       (main d h p b).1 = Normal tt
       ∧ UIManager.listItems (UIManager.page (main d h p b).2)
         = todos (constructor h b).1)
  ∧ (UIManager.emptyHidden (UIManager.page (main d h p b).2) = false
     ↔ todos (constructor h b).1 = [])
  ∧ (UIManager.listHidden (UIManager.page (main d h p b).2) = true
     ↔ todos (constructor h b).1 = [])
  ∧ UIManager.filterButtons (UIManager.page (main d h p b).2) = UIManager.filterButtons p
  ∧ todosItem (UIManager.browser (main d h p b).2) = todosItem b
  ∧ setItemCalls (UIManager.browser (main d h p b).2) = setItemCalls b
  ∧ ((todosItem b = None ∨ todosItem b = Some Garbled ∨ getItemThrows b = true) →
       (main d h p b).1 = Normal tt
       ∧ UIManager.listItems (UIManager.page (main d h p b).2) = []
       ∧ UIManager.emptyHidden (UIManager.page (main d h p b).2) = false).
Proof.
  assert (Hview : getTodos None (constructor h b).1 = todos (constructor h b).1).
  { unfold constructor, loadFromLocalStorage, getTodos.
    by destruct (tryLoad h b) as [[l|]|e]. }
  assert (Hsame : todosItem (constructor h b).2 = todosItem b
                  ∧ setItemCalls (constructor h b).2 = setItemCalls b).
  { unfold constructor, loadFromLocalStorage.
    by destruct (tryLoad h b) as [[l|]|e]. }
  destruct (appendElements_spec d (todos (constructor h b).1)) as (Hp & _ & Hn & He).
  unfold main, UIManager.constructor, UIManager.render. cbn [fst snd UIManager.page
    UIManager.manager UIManager.browser UIManager.listItems UIManager.emptyHidden
    UIManager.listHidden UIManager.filterButtons].
  rewrite Hview. destruct Hsame as [Hi Hc].
  assert (Hempty : (todosItem b = None ∨ todosItem b = Some Garbled
                    ∨ getItemThrows b = true) → todos (constructor h b).1 = []).
  { unfold constructor, loadFromLocalStorage, tryLoad, getItem.
    intros [Hn'|[Hn'|Hn']]; rewrite Hn'; by destruct (getItemThrows b). }
  split_and!; try done.
  - intros Hb. apply Hn in Hb. split; [done|by apply He].
  - destruct (todos (constructor h b).1); simpl; split; done.
  - destruct (todos (constructor h b).1); simpl; split; done.
  - intros Hcase. by rewrite (Hempty Hcase).
Qed.

(** ** Scenarios of the presentation tests *)

Example empty_input_shows_the_empty_message :
  UIManager.errorText
    (UIManager.page (UIManager.handleAddTodo plainDom entropyA sampleWorld).2)
  = lit "Taak mag niet leeg zijn".
Proof. reflexivity. Qed.

Example too_long_input_shows_the_length_message :
  UIManager.errorText
    (UIManager.page
       (UIManager.handleAddTodo plainDom entropyA
          (UIManager.withPage (UIManager.setInputValue (replicate 201 97) samplePage)
             sampleWorld)).2)
  = lit "Taak mag niet langer zijn dan 200 karakters".
Proof. vm_compute. reflexivity. Qed.

Example submitted_text_is_listed_and_counted :
  let w := (UIManager.handleAddTodo plainDom entropyA
              (UIManager.withPage (UIManager.setInputValue (lit "Test") samplePage)
                 sampleWorld)).2 in
  UIManager.inputValue (UIManager.page w) = []
  ∧ length (UIManager.listItems (UIManager.page w)) = 3%nat
  ∧ UIManager.countAll (UIManager.page w) = Some (lit "3")
  ∧ UIManager.countActive (UIManager.page w) = Some (lit "2")
  ∧ UIManager.countCompleted (UIManager.page w) = Some (lit "1").
Proof. vm_compute. by split_and!. Qed.

Example completed_filter_lists_one_task :
  length (UIManager.listItems
            (UIManager.page
               (UIManager.handleFilterChange plainDom FilterType.completed sampleWorld).2))
  = 1%nat.
Proof. reflexivity. Qed.

Example script_text_is_escaped :
  UIManager.escapeHtml (lit "<script>alert(1)</script>")
  = lit "&lt;script&gt;alert(1)&lt;/script&gt;".
Proof. reflexivity. Qed.
